(** * Calendar availability and billing of the studio agenda

    A shallow embedding of [src/lib/calendar-utils.ts] (and of the pricing
    functions of its alternate version kept in [src/types/index.ts]) together
    with the properties of the slot classifier and of the pricing and
    aggregation engine.

    Modelling conventions.
    - A JavaScript [Date] is its time value: a number of milliseconds, here
      an integer [Z].  Only valid dates are modelled.  The calendar fields
      read by date-fns ([getDay], [getMonth], [getFullYear], [setDate],
      [setHours]) are local-time fields; the local time zone is taken with a
      fixed offset from UTC, so that the time value counted from local
      midnight of 1970-01-01 determines them and a day has 86 400 000 ms.
    - A JavaScript [number] that holds hours, rates or amounts is modelled
      twice.  In [Module Js] it is the IEEE binary64 float that it is, and
      sums, products, quotients and comparisons are those of the machine:
      the properties of the values that [calculateProjectCost] and
      [calculateMonthlyClientMetrics] compute are stated there, with
      equalities between doubles.  Outside of it, it is an exact rational
      [Q]; this serves the properties of the rate table at given hours and
      the properties that relate two runs or two versions of a function.
    - An object used as a dictionary ([Record<string, T>]) whose keys are
      enumerated by [for ... in] is an association list in creation order of
      its keys, enumerated in the order of the language: array-index keys
      first, ascending, then the other keys in creation order.  In
      [Module Js] a key that names a property inherited from
      [Object.prototype] reads as that inherited value, so that pushing a
      booking under it throws a [TypeError], and assigning under
      ["__proto__"] creates no property; outside of it the dictionaries are
      taken without inherited properties.  The dictionary returned to the
      caller is a finite map [gmap string _] of its own properties. *)

From Stdlib Require Import ZArith QArith Lqa List String Ascii Lia Permutation Bool.
From Stdlib Require Import PrimFloat.
From stdpp Require Import gmap strings.
Import ListNotations.

Local Open Scope Z_scope.

(** ** Dates *)

Definition Date := Z.

Definition MS_PER_HOUR : Z := 3600000.
Definition MS_PER_DAY : Z := 86400000.

(** date-fns [addHours(date, amount)]: the time value moved by
    [amount * 3600000] ms. *)
Definition addHours (date : Date) (amount : Z) : Date :=
  date + amount * MS_PER_HOUR.

(** date-fns [subHours(date, amount)] is [addHours(date, -amount)]. *)
Definition subHours (date : Date) (amount : Z) : Date :=
  addHours date (- amount).

(** [Date.prototype.getDay]: 0 is Sunday, ..., 6 is Saturday.  Day 0 of the
    time scale (1970-01-01) was a Thursday. *)
Definition getDay (date : Date) : Z :=
  (date / MS_PER_DAY + 4) mod 7.

(** [date.setHours(0, 0, 0, 0)]: the midnight that opens the day. *)
Definition startOfDay (date : Date) : Date :=
  date - date mod MS_PER_DAY.

(** date-fns [addDays(date, amount)]: [date.setDate(date.getDate() + amount)],
    which keeps the time of day. *)
Definition addDays (date : Date) (amount : Z) : Date :=
  date + amount * MS_PER_DAY.

(** date-fns [startOfWeek(date, { weekStartsOn })]:
    [diff = (day < weekStartsOn ? 7 : 0) + day - weekStartsOn], then
    [setDate(getDate() - diff)] and [setHours(0, 0, 0, 0)]. *)
Definition startOfWeek (date : Date) (weekStartsOn : Z) : Date :=
  let day := getDay date in
  let diff := (if day <? weekStartsOn then 7 else 0) + day - weekStartsOn in
  startOfDay (addDays date (- diff)).

(** Days since 1970-01-01 to the civil year and the month index (0 is
    January) of the proleptic Gregorian calendar, as [getFullYear] and
    [getMonth] read them. *)
Definition civilYearMonth (days : Z) : Z * Z :=
  let z := days + 719468 in
  let era := z / 146097 in
  let doe := z - era * 146097 in
  let yoe := (doe - doe / 1460 + doe / 36524 - doe / 146096) / 365 in
  let doy := doe - (365 * yoe + yoe / 4 - yoe / 100) in
  let mp := (5 * doy + 2) / 153 in
  let m := if mp <? 10 then mp + 3 else mp - 9 in
  let y := yoe + era * 400 + (if m <=? 2 then 1 else 0) in
  (y, m - 1).

Definition getFullYear (date : Date) : Z := fst (civilYearMonth (date / MS_PER_DAY)).
Definition getMonth (date : Date) : Z := snd (civilYearMonth (date / MS_PER_DAY)).

(** date-fns [isSameMonth(a, b)]: same year and same month. *)
Definition isSameMonth (dateLeft dateRight : Date) : bool :=
  (getFullYear dateLeft =? getFullYear dateRight)
  && (getMonth dateLeft =? getMonth dateRight).

(** ** Data model *)

(** The display booking of [src/types/index.ts]. *)
Record Booking := mkBooking {
  booking_id : string;
  startTime : Date;
  endTime : Date;
  clientName : string;
  service : option string;
  title : option string
}.

(** The result of [checkSlotAvailability]: [bookingDetails] is the optional
    property of the returned object. *)
Record SlotAvailability := mkSlotAvailability {
  isBooked : bool;
  isBuffer : bool;
  bookingDetails : option Booking
}.

(** ** Slot classifier *)

Definition BUFFER_HOURS : Z := 1.
Definition CALENDAR_START_HOUR : Z := 9.
Definition CALENDAR_END_HOUR : Z := 19.

(** [getWeekDates]: six pushes, [addDays(monday, i)] for [i] from 0 to 5. *)
Definition getWeekDates (currentDate : Date) : list Date :=
  let monday := startOfWeek currentDate 1 in
  List.map (fun i => addDays monday (Z.of_nat i)) (seq 0 6).

(** The three-way test that both loops of [checkSlotAvailability] apply to
    a booking. *)
Definition directlyBooked (slotTime slotEndTime : Date) (booking : Booking) : bool :=
  let bookingStartTime := startTime booking in
  let bookingEndTime := endTime booking in
  ((slotTime >=? bookingStartTime) && (slotTime <? bookingEndTime))
  || ((slotEndTime >? bookingStartTime) && (slotEndTime <=? bookingEndTime))
  || ((bookingStartTime >=? slotTime) && (bookingEndTime <=? slotEndTime)).

(** First loop: the first booking that passes the test. *)
Fixpoint bookedPass (slotTime slotEndTime : Date) (bookings : list Booking)
  : option Booking :=
  match bookings with
  | [] => None
  | booking :: rest =>
      if directlyBooked slotTime slotEndTime booking then Some booking
      else bookedPass slotTime slotEndTime rest
  end.

(** Second loop: a booking that passes the test is skipped ([continue]); of
    the others, the first one whose buffer before its start or after its
    end holds the slot start. *)
Fixpoint bufferPass (slotTime slotEndTime : Date) (bookings : list Booking)
  : option Booking :=
  match bookings with
  | [] => None
  | booking :: rest =>
      let bookingStartTime := startTime booking in
      let bookingEndTime := endTime booking in
      if directlyBooked slotTime slotEndTime booking
      then bufferPass slotTime slotEndTime rest
      else
        let bufferBeforeStart := subHours bookingStartTime BUFFER_HOURS in
        let bufferAfterEnd := addHours bookingEndTime BUFFER_HOURS in
        if (slotTime >=? bufferBeforeStart) && (slotTime <? bookingStartTime)
        then Some booking
        else if (slotTime >=? bookingEndTime) && (slotTime <? bufferAfterEnd)
        then Some booking
        else bufferPass slotTime slotEndTime rest
  end.

Definition checkSlotAvailability (slotTime : Date) (bookings : list Booking)
  : SlotAvailability :=
  let slotEndTime := addHours slotTime 1 in
  match bookedPass slotTime slotEndTime bookings with
  | Some booking =>
      {| isBooked := true; isBuffer := false; bookingDetails := Some booking |}
  | None =>
      match bufferPass slotTime slotEndTime bookings with
      | Some booking =>
          {| isBooked := false; isBuffer := true; bookingDetails := Some booking |}
      | None =>
          {| isBooked := false; isBuffer := false; bookingDetails := None |}
      end
  end.

(** ** Documents *)

(** Modelled from the spec: the declarations of [@/types/firestore]
    ([ProjectDocument], [ClientDocument], [BookingDocument], [PacoteType])
    are imported by the source but are not part of it.  The records below
    carry the fields that the source reads, with the spec's description of
    them: a billing type that is either package or custom, an optional
    custom hourly rate, an optional package tier out of four named tiers. *)
Inductive BillingType := pacote | personalizado.

Inductive PacoteType := Avulso | Pacote10h | Pacote20h | Pacote40h.

Record ProjectDocument := mkProject {
  project_id : string;
  project_name : string;
  billingType : BillingType;
  customRate : option Q;
  pacoteSelecionado : option PacoteType
}.

Record ClientDocument := mkClient {
  client_id : string;
  client_name : string
}.

Record BookingDocument := mkBookingDocument {
  doc_id : string;
  doc_startTime : Date;
  doc_endTime : Date;
  clientId : string;
  projectId : string;
  duration : Q
}.

(** [{ totalHours, pricePerHour, totalAmount }]: the shape shared by
    [ProjectCostMetrics] and [ClientMonthlyMetrics]. *)
Record CostMetrics := mkMetrics {
  totalHours : Q;
  pricePerHour : Q;
  totalAmount : Q
}.

Definition ProjectCostMetrics := CostMetrics.
Definition ClientMonthlyMetrics := CostMetrics.

(** ** Numbers *)

Local Open Scope Q_scope.

(** [a >= b] and [a > b] on numbers. *)
Definition Qgeb (a b : Q) : bool := Qle_bool b a.
Definition Qgtb (a b : Q) : bool := negb (Qle_bool a b).

(** [xs.reduce((sum, x) => sum + f(x), 0)]. *)
Definition reduceSum {A : Type} (f : A -> Q) (xs : list A) : Q :=
  fold_left (fun sum x => sum + f x) xs 0.

(** ** Rate resolution *)

(** The tier ladder at the end of [getProjectPricePerHour]. *)
Definition tieredRate (totalHours : Q) : Q :=
  if Qgeb totalHours 40 then 160
  else if Qgeb totalHours 20 then 230
  else if Qgeb totalHours 10 then 260
  else 350.

(** [getProjectPricePerHour] of [src/lib/calendar-utils.ts]: the custom rate
    when the project is custom and [typeof project.customRate === 'number'],
    the tier ladder in every other case. *)
Definition getProjectPricePerHour (project : ProjectDocument) (totalHours : Q) : Q :=
  match billingType project, customRate project with
  | personalizado, Some rate => rate
  | _, _ => tieredRate totalHours
  end.

(** [getPricePerHourForProject] of the alternate version of the module kept
    in [src/types/index.ts]; the argument is optional because of its
    [if (!project) return 0] guard. *)
Definition getPricePerHourForProject (project : option ProjectDocument) : Q :=
  match project with
  | None => 0
  | Some project =>
      match billingType project with
      | personalizado =>
          match customRate project with
          | Some rate => rate
          | None => 0
          end
      | pacote =>
          match pacoteSelecionado project with
          | Some Avulso => 350
          | Some Pacote10h => 260
          | Some Pacote20h => 230
          | Some Pacote40h => 160
          | None => 350
          end
      end
  end.

(** ** Project cost *)

(** [calculateProjectCost]: [None] is the [null] returned for an absent
    project (the [console.error] line is not part of the value). *)
Definition calculateProjectCost
  (projectBookings : list BookingDocument) (project : option ProjectDocument)
  : option ProjectCostMetrics :=
  match project with
  | None => None
  | Some project =>
      let totalHours := reduceSum duration projectBookings in
      let pricePerHour := getProjectPricePerHour project totalHours in
      let totalAmount := totalHours * pricePerHour in
      Some {| totalHours := totalHours;
              pricePerHour := pricePerHour;
              totalAmount := totalAmount |}
  end.

(** ** Dictionaries *)

(** Own properties in creation order. *)
Definition Dict (V : Type) := list (string * V).

(** [if (!d[key]) d[key] = []; d[key].push(x)]: an array is never falsy,
    so a new property is created exactly when the key is not there yet. *)
Fixpoint pushTo {V : Type} (key : string) (x : V) (d : Dict (list V))
  : Dict (list V) :=
  match d with
  | [] => [(key, [x])]
  | (k, xs) :: rest =>
      if String.eqb k key then (k, xs ++ [x]) :: rest
      else (k, xs) :: pushTo key x rest
  end.

(** The [forEach] loops that fill [clientBookings] and [projectGroups]. *)
Definition groupBy {V : Type} (key : V -> string) (xs : list V) : Dict (list V) :=
  fold_left (fun d x => pushTo (key x) x d) xs [].

Definition isDigit (c : ascii) : bool :=
  let n := N_of_ascii c in (48 <=? n)%N && (n <=? 57)%N.

Fixpoint digitsValue (s : string) (acc : N) : option N :=
  match s with
  | EmptyString => Some acc
  | String c rest =>
      if isDigit c then digitsValue rest (acc * 10 + (N_of_ascii c - 48))%N
      else None
  end.

(** A property key is an array index when it is the canonical decimal
    writing of an integer from 0 to 2^32 - 2. *)
Definition arrayIndex (key : string) : option N :=
  match key with
  | EmptyString => None
  | String c rest =>
      if Ascii.eqb c "0" && negb (String.eqb rest EmptyString) then None
      else
        match digitsValue key 0 with
        | Some n => if (n <? 4294967295)%N then Some n else None
        | None => None
        end
  end.

Fixpoint insertByIndex {V : Type} (e : N * (string * V)) (l : list (N * (string * V)))
  : list (N * (string * V)) :=
  match l with
  | [] => [e]
  | e' :: rest =>
      if (fst e <=? fst e')%N then e :: l else e' :: insertByIndex e rest
  end.

Definition sortByIndex {V : Type} (l : list (N * (string * V)))
  : list (N * (string * V)) :=
  fold_right insertByIndex [] l.

Definition indexEntries {V : Type} (d : Dict V) : list (N * (string * V)) :=
  flat_map (fun e => match arrayIndex (fst e) with
                     | Some n => [(n, e)]
                     | None => []
                     end) d.

Definition nameEntries {V : Type} (d : Dict V) : Dict V :=
  List.filter (fun e => match arrayIndex (fst e) with
                        | Some _ => false
                        | None => true
                        end) d.

(** The order in which [for (const key in d)] visits the properties of [d];
    the value read back under the visited key is that entry's value. *)
Definition forInEntries {V : Type} (d : Dict V) : Dict V :=
  List.map snd (sortByIndex (indexEntries d)) ++ nameEntries d.

(** ** Monthly client metrics *)

(** [allClients.find(c => c.id === clientId)]. *)
Definition findClient (allClients : list ClientDocument) (clientId : string)
  : option ClientDocument :=
  List.find (fun c => String.eqb (client_id c) clientId) allClients.

(** [allProjects.find(p => p.id === projectId)]. *)
Definition findProject (allProjects : list ProjectDocument) (projectId : string)
  : option ProjectDocument :=
  List.find (fun p => String.eqb (project_id p) projectId) allProjects.

(** One turn of the loop [for (const projectId in projectGroups)], on the
    pair [(clientTotalHours, clientTotalAmount)]. *)
Definition projectStep
  (allBookingDocuments : list BookingDocument) (allProjects : list ProjectDocument)
  (totals : Q * Q) (group : string * list BookingDocument) : Q * Q :=
  let '(clientTotalHours, clientTotalAmount) := totals in
  let '(projectId_, monthlyBookingsForThisProject) := group in
  match findProject allProjects projectId_ with
  | None => totals
  | Some project =>
      let allBookingsForThisProject :=
        List.filter (fun b => String.eqb (projectId b) projectId_) allBookingDocuments in
      match calculateProjectCost allBookingsForThisProject (Some project) with
      | Some projectCostMetrics =>
          let monthlyHoursForThisProject :=
            reduceSum duration monthlyBookingsForThisProject in
          (clientTotalHours + monthlyHoursForThisProject,
           clientTotalAmount
             + monthlyHoursForThisProject * pricePerHour projectCostMetrics)
      | None => totals
      end
  end.

(** The body of the loop [for (const clientId in clientBookings)] once the
    client is found: the metrics written under the client's name. *)
Definition clientMetrics
  (allBookingDocuments : list BookingDocument) (allProjects : list ProjectDocument)
  (bookingsOfClient : list BookingDocument) : ClientMonthlyMetrics :=
  let projectGroups := groupBy projectId bookingsOfClient in
  let '(clientTotalHours, clientTotalAmount) :=
    fold_left (projectStep allBookingDocuments allProjects)
              (forInEntries projectGroups) (0, 0) in
  let effectivePricePerHour :=
    if Qgtb clientTotalHours 0 then clientTotalAmount / clientTotalHours else 0 in
  {| totalHours := clientTotalHours;
     pricePerHour := effectivePricePerHour;
     totalAmount := clientTotalAmount |}.

(** One turn of the loop [for (const clientId in clientBookings)]. *)
Definition clientStep
  (allBookingDocuments : list BookingDocument) (allProjects : list ProjectDocument)
  (allClients : list ClientDocument)
  (monthlyRecipe : gmap string ClientMonthlyMetrics)
  (entry : string * list BookingDocument) : gmap string ClientMonthlyMetrics :=
  let '(clientId_, bookingsOfClient) := entry in
  match findClient allClients clientId_ with
  | None => monthlyRecipe
  | Some client =>
      <[client_name client :=
          clientMetrics allBookingDocuments allProjects bookingsOfClient]> monthlyRecipe
  end.

Definition monthlyBookingsOf
  (allBookingDocuments : list BookingDocument) (targetDateForMonth : Date)
  : list BookingDocument :=
  List.filter (fun b => isSameMonth (doc_startTime b) targetDateForMonth)
              allBookingDocuments.

Definition calculateMonthlyClientMetrics
  (allBookingDocuments : list BookingDocument) (allProjects : list ProjectDocument)
  (allClients : list ClientDocument) (targetDateForMonth : Date)
  : gmap string ClientMonthlyMetrics :=
  let monthlyBookings := monthlyBookingsOf allBookingDocuments targetDateForMonth in
  let clientBookings := groupBy clientId monthlyBookings in
  fold_left (clientStep allBookingDocuments allProjects allClients)
            (forInEntries clientBookings) ∅.

(** ** Notions used to state the properties *)

Local Open Scope Z_scope.

(** A booking ends after it starts (the invariant of the data model). *)
Definition wellFormed (booking : Booking) : Prop :=
  startTime booking < endTime booking.

(** The booking interval [[start, end)] meets the slot [[slotTime, slotTime + 1h)]. *)
Definition overlapsSlot (slotTime : Date) (booking : Booking) : Prop :=
  startTime booking < slotTime + MS_PER_HOUR /\ slotTime < endTime booking.

(** The slot start lies in the hour before the booking or in the hour
    after it. *)
Definition inBufferZone (slotTime : Date) (booking : Booking) : Prop :=
  startTime booking - MS_PER_HOUR <= slotTime < startTime booking
  \/ endTime booking <= slotTime < endTime booking + MS_PER_HOUR.

Local Open Scope Q_scope.

Definition Qsum (xs : list Q) : Q := fold_right Qplus 0 xs.

(** The step function of package billing, as a relation between hours and
    rate. *)
Definition packageRate (h rate : Q) : Prop :=
  (40 <= h -> rate = 160)
  /\ (20 <= h -> h < 40 -> rate = 230)
  /\ (10 <= h -> h < 20 -> rate = 260)
  /\ (h < 10 -> rate = 350).

(** All-time hours booked on a project id. *)
Definition lifetimeHours (allBookingDocuments : list BookingDocument) (pid : string) : Q :=
  Qsum (List.map duration
          (List.filter (fun b => String.eqb (projectId b) pid) allBookingDocuments)).

(** The rate of a project id: that of the project found under it, resolved
    from its all-time hours; none when no project is found. *)
Definition lifetimeRate
  (allBookingDocuments : list BookingDocument) (allProjects : list ProjectDocument)
  (pid : string) : option Q :=
  match findProject allProjects pid with
  | Some project =>
      Some (getProjectPricePerHour project (lifetimeHours allBookingDocuments pid))
  | None => None
  end.

(** The bookings of a client id that start in the target month. *)
Definition clientMonthlyBookings
  (allBookingDocuments : list BookingDocument) (targetDateForMonth : Date)
  (cid : string) : list BookingDocument :=
  List.filter (fun b => String.eqb (clientId b) cid)
              (monthlyBookingsOf allBookingDocuments targetDateForMonth).

(** ** Sample data *)

Local Open Scope Z_scope.

(** Monday 2024-01-15, 00:00, and a day of the next month. *)
Definition jan15 : Date := 1705276800000.
Definition feb15 : Date := jan15 + 31 * MS_PER_DAY.

Definition sessionBooking : Booking :=
  mkBooking "s1" (addHours jan15 14) (addHours jan15 16) "Ana" None None.

Local Open Scope Q_scope.

Definition packageProject : ProjectDocument :=
  mkProject "p1" "Album" pacote None None.

Definition secondProject : ProjectDocument :=
  mkProject "p2" "Single" pacote None None.

Definition customProjectNoRate : ProjectDocument :=
  mkProject "p3" "Jingle" personalizado None None.

Definition ana : ClientDocument := mkClient "c1" "Ana".
Definition bia : ClientDocument := mkClient "c3" "Bia".

(** Two bookings of 5 h and 6 h on the package project. *)
Definition elevenHours : list BookingDocument :=
  [ mkBookingDocument "b1" jan15 (addHours jan15 5) "c1" "p1" 5;
    mkBookingDocument "b2" feb15 (addHours feb15 6) "c1" "p1" 6 ].

(** January: 10 h on the first project (10 h all-time, rate 260) and 5 h on
    the second, which has 35 h more in February (40 h all-time, rate 160). *)
Definition twoProjects : list BookingDocument :=
  [ mkBookingDocument "b1" jan15 (addHours jan15 10) "c1" "p1" 10;
    mkBookingDocument "b2" jan15 (addHours jan15 5) "c1" "p2" 5;
    mkBookingDocument "b3" feb15 (addHours feb15 35) "c1" "p2" 35 ].

(** January bookings of a known client, one of them on an unknown project,
    and one booking of an unknown client on the known project. *)
Definition dangling : list BookingDocument :=
  [ mkBookingDocument "b1" jan15 (addHours jan15 3) "c1" "p1" 3;
    mkBookingDocument "b2" jan15 (addHours jan15 2) "c1" "p9" 2;
    mkBookingDocument "b3" jan15 (addHours jan15 8) "c9" "p1" 8 ].

(** ** Notions used in the proofs about the aggregation *)

(** [d] is the grouping of [xs] by [key]: distinct keys, under each key the
    elements of [xs] that bear it, in order, and no element left out. *)
Definition GroupsOf {V : Type} (key : V -> string) (d : Dict (list V)) (xs : list V)
  : Prop :=
  List.NoDup (List.map fst d)
  /\ (forall k vs, In (k, vs) d ->
        vs = List.filter (fun x => String.eqb (key x) k) xs /\ vs <> [])
  /\ (forall x, In x xs -> In (key x) (List.map fst d)).

(** What one project group adds to the hours and to the amount of its
    client in [projectStep]. *)
Definition groupHours
  (allProjects : list ProjectDocument) (group : string * list BookingDocument) : Q :=
  match findProject allProjects (fst group) with
  | Some _ => reduceSum duration (snd group)
  | None => 0
  end.

Definition groupAmount
  (allBookingDocuments : list BookingDocument) (allProjects : list ProjectDocument)
  (group : string * list BookingDocument) : Q :=
  match findProject allProjects (fst group) with
  | Some project =>
      reduceSum duration (snd group)
      * getProjectPricePerHour project
          (reduceSum duration
             (List.filter (fun b => String.eqb (projectId b) (fst group))
                allBookingDocuments))
  | None => 0
  end.

(** Hours and amount that one booking brings to its client's month. *)
Definition billedHours
  (allBookingDocuments : list BookingDocument) (allProjects : list ProjectDocument)
  (b : BookingDocument) : Q :=
  match lifetimeRate allBookingDocuments allProjects (projectId b) with
  | Some _ => duration b
  | None => 0
  end.

Definition billedAmount
  (allBookingDocuments : list BookingDocument) (allProjects : list ProjectDocument)
  (b : BookingDocument) : Q :=
  match lifetimeRate allBookingDocuments allProjects (projectId b) with
  | Some rate => duration b * rate
  | None => 0
  end.

(** ** Time of day *)

Local Open Scope Z_scope.

Definition MS_PER_MINUTE : Z := 60000.
Definition MS_PER_SECOND : Z := 1000.

(** [Date.prototype.getHours], [getMinutes], [getSeconds]: the local fields
    of the time of day. *)
Definition getHours (date : Date) : Z := date mod MS_PER_DAY / MS_PER_HOUR.
Definition getMinutes (date : Date) : Z := date mod MS_PER_HOUR / MS_PER_MINUTE.
Definition getSeconds (date : Date) : Z := date mod MS_PER_MINUTE / MS_PER_SECOND.

(** date-fns [setSeconds(date, seconds)], [setMinutes(date, minutes)] and
    [setHours(date, hours)]: [date.setSeconds(seconds)] and the like, which
    replace one field and keep the smaller ones (the milliseconds too). *)
Definition setSeconds (date : Date) (seconds : Z) : Date :=
  date + (seconds - getSeconds date) * MS_PER_SECOND.

Definition setMinutes (date : Date) (minutes : Z) : Date :=
  date + (minutes - getMinutes date) * MS_PER_MINUTE.

Definition setHours (date : Date) (hours : Z) : Date :=
  date + (hours - getHours date) * MS_PER_HOUR.

(** date-fns [endOfDay(date)]: [date.setHours(23, 59, 59, 999)]. *)
Definition endOfDay (date : Date) : Date :=
  startOfDay date + MS_PER_DAY - 1.

(** ** Hour slots of a day *)

(** What [eachHourOfInterval] gives: the hours, or one of the two cases that
    are not described here.  A reversed interval is a [RangeError] in
    date-fns 2 and a reversed list in later versions; [generateTimeSlots]
    never builds one.  [OutOfFuel] means that the loop below was cut short. *)
Inductive IntervalHours :=
| Hours (dates : list Date)
| ReversedInterval
| OutOfFuel.

(** [while (currentDate <= endTime) { dates.push(currentDate);
    currentDate = addHours(currentDate, 1) }], with a bound on the number
    of turns. *)
Fixpoint eachHourLoop (fuel : nat) (currentDate endTime : Date)
  : option (list Date) :=
  match fuel with
  | O => if currentDate <=? endTime then None else Some []
  | S fuel' =>
      if currentDate <=? endTime then
        match eachHourLoop fuel' (addHours currentDate 1) endTime with
        | Some dates => Some (currentDate :: dates)
        | None => None
        end
      else Some []
  end.

(** date-fns [eachHourOfInterval({ start, end })] with the step of one
    hour: the loop starts at [start] with minutes, seconds and milliseconds
    set to 0 ([currentDate.setMinutes(0, 0, 0)]). *)
Definition eachHourOfInterval (start end_ : Date) : IntervalHours :=
  if end_ <? start then ReversedInterval
  else
    let currentDate := start - start mod MS_PER_HOUR in
    match eachHourLoop (Z.to_nat ((end_ - currentDate) / MS_PER_HOUR + 1))
            currentDate end_ with
    | Some dates => Hours dates
    | None => OutOfFuel
    end.

Definition generateTimeSlots (date : Date) : IntervalHours :=
  let startCalDay :=
    setHours (setMinutes (setSeconds date 0) 0) CALENDAR_START_HOUR in
  let endCalDay :=
    setHours (setMinutes (setSeconds date 0) 0) (CALENDAR_END_HOUR - 1) in
  eachHourOfInterval startCalDay endCalDay.

(** ** Bookings of the display week *)

(** The objects that [getBookingsForWeek] builds: the fields of [Booking]
    and the two ids.  Where a string is cut or measured, one [ascii] stands
    for one UTF-16 code unit (text whose code units are below 256). *)
Record WeekBooking := mkWeekBooking {
  wb_id : string;
  wb_startTime : Date;
  wb_endTime : Date;
  wb_clientId : string;
  wb_clientName : string;
  wb_projectId : string;
  wb_service : string;
  wb_title : string
}.

(** A [WeekBooking] read as a [Booking], as [checkSlotAvailability] is
    handed it. *)
Definition toBooking (w : WeekBooking) : Booking :=
  {| booking_id := wb_id w;
     startTime := wb_startTime w;
     endTime := wb_endTime w;
     clientName := wb_clientName w;
     service := Some (wb_service w);
     title := Some (wb_title w) |}.

(** The text ["Sessão para "]; its fifth code unit is U+00E3. *)
Definition sessaoPara : string :=
  ("Sess" ++ String "227"%char "o para ")%string.

Definition clienteDesconhecido : string := "Cliente Desconhecido".
Definition projetoDesconhecido : string := "Projeto Desconhecido".

(** The [map] callback of [getBookingsForWeek]. *)
Definition weekBookingOf
  (allClients : list ClientDocument) (allProjects : list ProjectDocument)
  (doc : BookingDocument) : WeekBooking :=
  let client := findClient allClients (clientId doc) in
  let project := findProject allProjects (projectId doc) in
  let clientName_ :=
    match client with Some c => client_name c | None => clienteDesconhecido end in
  let projectName :=
    match project with Some p => project_name p | None => projetoDesconhecido end in
  let service_ := (sessaoPara ++ projectName)%string in
  {| wb_id := doc_id doc;
     wb_startTime := doc_startTime doc;
     wb_endTime := doc_endTime doc;
     wb_clientId := clientId doc;
     wb_clientName := clientName_;
     wb_projectId := projectId doc;
     wb_service := service_;
     wb_title :=
       (clientName_ ++ " / " ++ projectName ++ " - "
        ++ String.substring 0 20 service_)%string |}.

Definition getBookingsForWeek
  (weekDates : list Date) (allBookingDocuments : list BookingDocument)
  (allClients : list ClientDocument) (allProjects : list ProjectDocument)
  : list WeekBooking :=
  match weekDates with
  | [] => []
  | first :: _ =>
      let firstDayOfWeek := startOfDay first in
      let lastDayOfWeek := endOfDay (List.last weekDates first) in
      List.map (weekBookingOf allClients allProjects)
        (List.filter
           (fun doc =>
              (doc_startTime doc >=? firstDayOfWeek)
              && (doc_startTime doc <=? lastDayOfWeek))
           allBookingDocuments)
  end.

(** ** The alternate version of the pricing *)

Local Open Scope Q_scope.

Module Alt.

(** [getTieredPricePerHour] of [src/types/index.ts]. *)
Definition getTieredPricePerHour (totalHours : Q) : Q :=
  if Qgeb totalHours 40 then 160
  else if Qgeb totalHours 20 then 230
  else if Qgeb totalHours 10 then 260
  else 350.

(** [calculateClientMonthlyInvoice] of [src/types/index.ts]. *)
Definition calculateClientMonthlyInvoice (bookingDurations : list Q)
  : ClientMonthlyMetrics :=
  let totalHours := reduceSum (fun duration => duration) bookingDurations in
  let pricePerHour := getTieredPricePerHour totalHours in
  let totalAmount := totalHours * pricePerHour in
  {| totalHours := totalHours;
     pricePerHour := pricePerHour;
     totalAmount := totalAmount |}.

(** [calculateProjectCost] of [src/types/index.ts]: the rate comes from
    [getPricePerHourForProject] and does not look at the hours. *)
Definition calculateProjectCost
  (projectBookings : list BookingDocument) (project : option ProjectDocument)
  : option ProjectCostMetrics :=
  match project with
  | None => None
  | Some project_ =>
      let totalHours := reduceSum duration projectBookings in
      let pricePerHour := getPricePerHourForProject (Some project_) in
      let totalAmount := totalHours * pricePerHour in
      Some {| totalHours := totalHours;
              pricePerHour := pricePerHour;
              totalAmount := totalAmount |}
  end.

End Alt.

(** ** The pricing and the aggregation on IEEE doubles *)

(** The functions of [src/lib/calendar-utils.ts] that add, multiply or
    divide numbers, once more, with the numbers as the binary64 floats that
    they are ([+], [*], [/], [<=?] and [<?] below are the IEEE operations),
    and with the dictionaries as the plain objects that they are: a key
    that names a property inherited from [Object.prototype] is read as that
    inherited value.  The definitions above, on exact rationals and on
    dictionaries without inherited properties, serve the statements that
    only compare numbers or relate two runs. *)

Module Js.

#[local] Set Warnings "-inexact-float".
Local Open Scope float_scope.

Inductive Outcome (A : Type) :=
| Returned (value : A)
| TypeError.

Arguments Returned {A} value.
Arguments TypeError {A}.

(** Modelled from the spec: the documents of [@/types/firestore], as
    above, with numbers as doubles. *)
Record ProjectDocument := mkProject {
  project_id : string;
  project_name : string;
  billingType : BillingType;
  customRate : option float;
  pacoteSelecionado : option PacoteType
}.

Record BookingDocument := mkBookingDocument {
  doc_id : string;
  doc_startTime : Date;
  doc_endTime : Date;
  clientId : string;
  projectId : string;
  duration : float
}.

Record CostMetrics := mkMetrics {
  totalHours : float;
  pricePerHour : float;
  totalAmount : float
}.

Definition ProjectCostMetrics := CostMetrics.
Definition ClientMonthlyMetrics := CostMetrics.

(** [xs.reduce((sum, x) => sum + f(x), 0)]. *)
Definition reduceSum {A : Type} (f : A -> float) (xs : list A) : float :=
  fold_left (fun sum x => sum + f x) xs 0.

(** [getProjectPricePerHour]: [totalHours >= 40] is [40 <=? totalHours], false
    on NaN. *)
Definition getProjectPricePerHour (project : ProjectDocument) (totalHours : float)
  : float :=
  match billingType project, customRate project with
  | personalizado, Some rate => rate
  | _, _ =>
      if 40 <=? totalHours then 160
      else if 20 <=? totalHours then 230
      else if 10 <=? totalHours then 260
      else 350
  end.

Definition calculateProjectCost
  (projectBookings : list BookingDocument) (project : option ProjectDocument)
  : option ProjectCostMetrics :=
  match project with
  | None => None
  | Some project_ =>
      let totalHours := reduceSum duration projectBookings in
      let pricePerHour := getProjectPricePerHour project_ totalHours in
      let totalAmount := totalHours * pricePerHour in
      Some {| totalHours := totalHours;
              pricePerHour := pricePerHour;
              totalAmount := totalAmount |}
  end.

(** The names of the properties that an object literal inherits from
    [Object.prototype]. *)
Definition objectPrototypeKeys : list string :=
  [ "constructor"; "hasOwnProperty"; "isPrototypeOf"; "propertyIsEnumerable";
    "toLocaleString"; "toString"; "valueOf"; "__proto__";
    "__defineGetter__"; "__defineSetter__"; "__lookupGetter__";
    "__lookupSetter__" ]%string.

Definition inheritedKey (key : string) : bool :=
  existsb (String.eqb key) objectPrototypeKeys.

(** [if (!d[key]) d[key] = []; d[key].push(x)] on an object literal.  Under
    an inherited key, [d[key]] is the inherited function or object: it is
    truthy, no own property is created, and it has no [push], which is a
    [TypeError].  Under any other key this is [pushTo]. *)
Definition push {V : Type} (key : string) (x : V) (d : Dict (list V))
  : Outcome (Dict (list V)) :=
  if inheritedKey key then TypeError else Returned (pushTo key x d).

(** The [forEach] loops that fill [clientBookings] and [projectGroups]. *)
Fixpoint groupInto {V : Type} (key : V -> string) (xs : list V) (d : Dict (list V))
  : Outcome (Dict (list V)) :=
  match xs with
  | [] => Returned d
  | x :: rest =>
      match push (key x) x d with
      | Returned d' => groupInto key rest d'
      | TypeError => TypeError
      end
  end.

Definition groupBy {V : Type} (key : V -> string) (xs : list V)
  : Outcome (Dict (list V)) :=
  groupInto key xs [].

Definition findProject (allProjects : list ProjectDocument) (pid : string)
  : option ProjectDocument :=
  List.find (fun p => String.eqb (project_id p) pid) allProjects.

(** One turn of the loop [for (const projectId in projectGroups)]. *)
Definition projectStep
  (allBookingDocuments : list BookingDocument) (allProjects : list ProjectDocument)
  (totals : float * float) (group : string * list BookingDocument) : float * float :=
  let '(clientTotalHours, clientTotalAmount) := totals in
  let '(projectId_, monthlyBookingsForThisProject) := group in
  match findProject allProjects projectId_ with
  | None => totals
  | Some project =>
      let allBookingsForThisProject :=
        List.filter (fun b => String.eqb (projectId b) projectId_) allBookingDocuments in
      match calculateProjectCost allBookingsForThisProject (Some project) with
      | Some projectCostMetrics =>
          let monthlyHoursForThisProject :=
            reduceSum duration monthlyBookingsForThisProject in
          (clientTotalHours + monthlyHoursForThisProject,
           clientTotalAmount
             + monthlyHoursForThisProject * pricePerHour projectCostMetrics)
      | None => totals
      end
  end.

(** The body of the loop [for (const clientId in clientBookings)] once the
    client is found; [clientTotalHours > 0] is [0 <? clientTotalHours]. *)
Definition clientMetrics
  (allBookingDocuments : list BookingDocument) (allProjects : list ProjectDocument)
  (bookingsOfClient : list BookingDocument) : Outcome ClientMonthlyMetrics :=
  match groupBy projectId bookingsOfClient with
  | TypeError => TypeError
  | Returned projectGroups =>
      let '(clientTotalHours, clientTotalAmount) :=
        fold_left (projectStep allBookingDocuments allProjects)
                  (forInEntries projectGroups) (0, 0) in
      let effectivePricePerHour :=
        if 0 <? clientTotalHours then clientTotalAmount / clientTotalHours else 0 in
      Returned {| totalHours := clientTotalHours;
                  pricePerHour := effectivePricePerHour;
                  totalAmount := clientTotalAmount |}
  end.

(** [monthlyRecipe[name] = metrics] on an object literal: under the name
    ["__proto__"] the assignment sets the prototype of the object and
    creates no own property. *)
Definition assign (name : string) (metrics : ClientMonthlyMetrics)
  (monthlyRecipe : gmap string ClientMonthlyMetrics)
  : gmap string ClientMonthlyMetrics :=
  if String.eqb name "__proto__" then monthlyRecipe
  else <[name := metrics]> monthlyRecipe.

(** The loop [for (const clientId in clientBookings)]. *)
Fixpoint clientLoop
  (allBookingDocuments : list BookingDocument) (allProjects : list ProjectDocument)
  (allClients : list ClientDocument)
  (entries : Dict (list BookingDocument))
  (monthlyRecipe : gmap string ClientMonthlyMetrics)
  : Outcome (gmap string ClientMonthlyMetrics) :=
  match entries with
  | [] => Returned monthlyRecipe
  | (clientId_, bookingsOfClient) :: rest =>
      match findClient allClients clientId_ with
      | None =>
          clientLoop allBookingDocuments allProjects allClients rest monthlyRecipe
      | Some client =>
          match clientMetrics allBookingDocuments allProjects bookingsOfClient with
          | TypeError => TypeError
          | Returned metrics =>
              clientLoop allBookingDocuments allProjects allClients rest
                (assign (client_name client) metrics monthlyRecipe)
          end
      end
  end.

(** [calculateMonthlyClientMetrics]: the own properties of the object
    returned, or the [TypeError] thrown. *)
Definition calculateMonthlyClientMetrics
  (allBookingDocuments : list BookingDocument) (allProjects : list ProjectDocument)
  (allClients : list ClientDocument) (targetDateForMonth : Date)
  : Outcome (gmap string ClientMonthlyMetrics) :=
  let monthlyBookings :=
    List.filter (fun b => isSameMonth (doc_startTime b) targetDateForMonth)
                allBookingDocuments in
  match groupBy clientId monthlyBookings with
  | TypeError => TypeError
  | Returned clientBookings =>
      clientLoop allBookingDocuments allProjects allClients
        (forInEntries clientBookings) ∅
  end.

(** *** Notions used to state the properties *)

(** The sum of a list of numbers as the machine adds them: from 0, from
    left to right. *)
Fixpoint sumFrom (acc : float) (xs : list float) : float :=
  match xs with
  | [] => acc
  | x :: rest => sumFrom (acc + x) rest
  end.

Definition sumOf (xs : list float) : float := sumFrom 0 xs.

(** The rate table of package billing, highest threshold first, and the
    rate of the hours: that of the first threshold that the hours reach,
    350 when they reach none. *)
Definition rateTable : list (float * float) :=
  [(40, 160); (20, 230); (10, 260)].

Definition tableRate (hours : float) : float :=
  match List.find (fun row => fst row <=? hours) rateTable with
  | Some row => snd row
  | None => 350
  end.

(** The rate that a project resolves from cumulative hours: its custom rate
    if it is a custom project that has one, the rate of the table if not (a
    custom project without a rate takes the rate of the table). *)
Definition resolvesRate (project : ProjectDocument) (hours rate : float) : Prop :=
  (forall r, billingType project = personalizado -> customRate project = Some r ->
             rate = r)
  /\ (billingType project = pacote \/ customRate project = None ->
      rate = tableRate hours).

(** The ids of a list, each once, in the order of their first
    appearance. *)
Fixpoint distinct (keys : list string) : list string :=
  match keys with
  | [] => []
  | k :: rest => k :: List.filter (fun k' => negb (String.eqb k' k)) (distinct rest)
  end.

(** Keys in the order in which [for ... in] visits them. *)
Definition forInKeys (keys : list string) : list string :=
  List.map fst (forInEntries (List.map (fun k => (k, tt)) keys)).

Definition inMonth (targetDateForMonth : Date) (b : BookingDocument) : bool :=
  isSameMonth (doc_startTime b) targetDateForMonth.

(** The bookings of a (client, project) pair that start in the target
    month, in the order of the input. *)
Definition pairBookings
  (allBookingDocuments : list BookingDocument) (targetDateForMonth : Date)
  (cid pid : string) : list BookingDocument :=
  List.filter
    (fun b => inMonth targetDateForMonth b
              && String.eqb (clientId b) cid && String.eqb (projectId b) pid)
    allBookingDocuments.

Definition pairMonthlyHours
  (allBookingDocuments : list BookingDocument) (targetDateForMonth : Date)
  (cid pid : string) : float :=
  sumOf (List.map duration (pairBookings allBookingDocuments targetDateForMonth cid pid)).

(** All-time hours of a project id. *)
Definition lifetimeHours (allBookingDocuments : list BookingDocument) (pid : string)
  : float :=
  sumOf (List.map duration
           (List.filter (fun b => String.eqb (projectId b) pid) allBookingDocuments)).

(** The rate of a project at its all-time hours: its custom rate, or the
    rate of the table for the hours of all the bookings that bear its id,
    whatever their month and their client. *)
Definition lifetimeRate
  (allBookingDocuments : list BookingDocument) (project : ProjectDocument) : float :=
  match billingType project, customRate project with
  | personalizado, Some rate => rate
  | _, _ => tableRate (lifetimeHours allBookingDocuments (project_id project))
  end.

(** The bookings of a client id that start in the target month, in the
    order of the input. *)
Definition clientMonthly
  (allBookingDocuments : list BookingDocument) (targetDateForMonth : Date)
  (cid : string) : list BookingDocument :=
  List.filter
    (fun b => inMonth targetDateForMonth b && String.eqb (clientId b) cid)
    allBookingDocuments.

(** The project ids of the bookings of a client in the target month, each
    once, in the order in which [for ... in] visits them. *)
Definition clientProjects
  (allBookingDocuments : list BookingDocument) (targetDateForMonth : Date)
  (cid : string) : list string :=
  forInKeys
    (distinct
       (List.map projectId
          (clientMonthly allBookingDocuments targetDateForMonth cid))).

(** What a pair adds to the hours and to the amount of its client: its
    monthly hours, and these hours at the lifetime rate of the project;
    nothing when no project bears the id. *)
Definition addPair
  (allBookingDocuments : list BookingDocument) (allProjects : list ProjectDocument)
  (targetDateForMonth : Date) (cid : string)
  (totals : float * float) (pid : string) : float * float :=
  match findProject allProjects pid with
  | Some project =>
      (fst totals + pairMonthlyHours allBookingDocuments targetDateForMonth cid pid,
       snd totals
       + pairMonthlyHours allBookingDocuments targetDateForMonth cid pid
         * lifetimeRate allBookingDocuments project)
  | None => totals
  end.

(** Hours and amount of a client in the target month: the pairs of the
    client added up from (0, 0), in the order of [clientProjects]. *)
Definition monthTotals
  (allBookingDocuments : list BookingDocument) (allProjects : list ProjectDocument)
  (targetDateForMonth : Date) (cid : string) : float * float :=
  fold_left (addPair allBookingDocuments allProjects targetDateForMonth cid)
    (clientProjects allBookingDocuments targetDateForMonth cid) (0, 0).



(** *** Sample data *)

Definition packageProject : ProjectDocument :=
  mkProject "p1" "Album" pacote None None.

Definition secondProject : ProjectDocument :=
  mkProject "p2" "Single" pacote None None.

(** Two bookings of 5 h and 6 h on the package project. *)
Definition elevenHours : list BookingDocument :=
  [ mkBookingDocument "b1" jan15 (addHours jan15 5) "c1" "p1" 5;
    mkBookingDocument "b2" feb15 (addHours feb15 6) "c1" "p1" 6 ].

(** Bookings of 0.1 h, 8.2 h and 1.7 h: ten hours on paper. *)
Definition almostTen : list BookingDocument :=
  [ mkBookingDocument "b1" jan15 (jan15 + 360000)%Z "c1" "p1" 0.1;
    mkBookingDocument "b2" (addHours jan15 1) (addHours jan15 1 + 29520000)%Z
      "c1" "p1" 8.2;
    mkBookingDocument "b3" (addHours jan15 10) (addHours jan15 10 + 6120000)%Z
      "c1" "p1" 1.7 ].

(** January: 10 h on the first project (10 h all-time, rate 260) and 5 h on
    the second, which has 35 h more in February (40 h all-time, rate 160). *)
Definition twoProjects : list BookingDocument :=
  [ mkBookingDocument "b1" jan15 (addHours jan15 10) "c1" "p1" 10;
    mkBookingDocument "b2" jan15 (addHours jan15 5) "c1" "p2" 5;
    mkBookingDocument "b3" feb15 (addHours feb15 35) "c1" "p2" 35 ].


(** January bookings of a known client, one of them on an unknown project,
    and one booking of an unknown client on the known project. *)
Definition dangling : list BookingDocument :=
  [ mkBookingDocument "b1" jan15 (addHours jan15 3) "c1" "p1" 3;
    mkBookingDocument "b2" jan15 (addHours jan15 2) "c1" "p9" 2;
    mkBookingDocument "b3" jan15 (addHours jan15 8) "c9" "p1" 8 ].

End Js.

(** ** Tactics *)

(** The comparisons of the source, turned into propositions for [lia]. *)
Ltac cmp :=
  repeat match goal with
  | H : context [(_ >=? _)%Z] |- _ => rewrite Z.geb_leb in H
  | H : context [(_ >? _)%Z] |- _ => rewrite Z.gtb_ltb in H
  | |- context [(_ >=? _)%Z] => rewrite Z.geb_leb
  | |- context [(_ >? _)%Z] => rewrite Z.gtb_ltb
  end;
  repeat match goal with
  | H : _ && _ = true |- _ => apply andb_true_iff in H; destruct H
  | H : _ || _ = true |- _ => apply orb_true_iff in H; destruct H
  | H : _ && _ = false |- _ => apply andb_false_iff in H; destruct H
  | H : _ || _ = false |- _ => apply orb_false_iff in H; destruct H
  | H : (_ <=? _)%Z = true |- _ => apply Z.leb_le in H
  | H : (_ <? _)%Z = true |- _ => apply Z.ltb_lt in H
  | H : (_ <=? _)%Z = false |- _ => apply Z.leb_gt in H
  | H : (_ <? _)%Z = false |- _ => apply Z.ltb_ge in H
  end.

(** Comparisons of the goal decided by [lia]. *)
Ltac decide_cmp :=
  rewrite ?Z.geb_leb, ?Z.gtb_ltb;
  repeat match goal with
  | |- context [(?a <=? ?b)%Z] => destruct (Z.leb_spec a b); try lia
  | |- context [(?a <? ?b)%Z] => destruct (Z.ltb_spec a b); try lia
  end.

(** * Properties of the slot classifier *)

Section SlotClassifier.

Local Open Scope Z_scope.

Lemma directlyBooked_overlaps (slotTime : Date) (booking : Booking) :
  wellFormed booking ->
  directlyBooked slotTime (addHours slotTime 1) booking = true
  <-> overlapsSlot slotTime booking.
Proof.
  unfold wellFormed, directlyBooked, overlapsSlot, addHours, MS_PER_HOUR.
  intros Hwf. split.
  - intros H. cmp; lia.
  - intros [H1 H2].
    destruct (directlyBooked slotTime (slotTime + 1 * 3600000) booking) eqn:E;
      unfold directlyBooked in E; [ exact E | ].
    exfalso. cmp; lia.
Qed.

Lemma bookedPass_none (slotTime slotEndTime : Date) (bookings : list Booking) :
  bookedPass slotTime slotEndTime bookings = None
  <-> forall b, In b bookings -> directlyBooked slotTime slotEndTime b = false.
Proof.
  induction bookings as [| b rest IH]; simpl.
  - split; [ intros _ b [] | reflexivity ].
  - destruct (directlyBooked slotTime slotEndTime b) eqn:E.
    + split; [ discriminate | ].
      intros H. specialize (H b (or_introl eq_refl)). congruence.
    + rewrite IH. split.
      * intros H b' [<- | Hin]; auto.
      * intros H b' Hin. apply H. now right.
Qed.

Lemma bookedPass_some (slotTime slotEndTime : Date) (bookings : list Booking) (b : Booking) :
  bookedPass slotTime slotEndTime bookings = Some b ->
  In b bookings /\ directlyBooked slotTime slotEndTime b = true.
Proof.
  induction bookings as [| b' rest IH]; simpl; [ discriminate | ].
  destruct (directlyBooked slotTime slotEndTime b') eqn:E.
  - intros [= <-]. auto.
  - intros H. destruct (IH H). auto.
Qed.

Lemma bufferTest_zone (slotTime : Date) (b : Booking) :
  ((slotTime >=? subHours (startTime b) BUFFER_HOURS) && (slotTime <? startTime b))
  || ((slotTime >=? endTime b) && (slotTime <? addHours (endTime b) BUFFER_HOURS)) = true
  <-> inBufferZone slotTime b.
Proof.
  unfold inBufferZone, subHours, addHours, BUFFER_HOURS, MS_PER_HOUR.
  split.
  - intros H. cmp; lia.
  - intros H.
    match goal with |- ?t = true => destruct t eqn:E end; [ reflexivity | ].
    exfalso. cmp; lia.
Qed.

Lemma bufferPass_some (slotTime slotEndTime : Date) (bookings : list Booking) (b : Booking) :
  bufferPass slotTime slotEndTime bookings = Some b ->
  In b bookings /\ directlyBooked slotTime slotEndTime b = false
  /\ inBufferZone slotTime b.
Proof.
  induction bookings as [| b' rest IH]; simpl; [ discriminate | ].
  destruct (directlyBooked slotTime slotEndTime b') eqn:E.
  - intros H. destruct (IH H) as (? & ? & ?). auto.
  - pose proof (bufferTest_zone slotTime b') as Hz.
    destruct ((slotTime >=? subHours (startTime b') BUFFER_HOURS)
              && (slotTime <? startTime b')) eqn:E1.
    + intros [= <-]. repeat split; auto. apply Hz. reflexivity.
    + destruct ((slotTime >=? endTime b')
                && (slotTime <? addHours (endTime b') BUFFER_HOURS)) eqn:E2.
      * intros [= <-]. repeat split; auto. apply Hz. reflexivity.
      * intros H. destruct (IH H) as (? & ? & ?). auto.
Qed.

Lemma bufferPass_none (slotTime slotEndTime : Date) (bookings : list Booking) :
  bufferPass slotTime slotEndTime bookings = None ->
  forall b, In b bookings ->
    directlyBooked slotTime slotEndTime b = false -> ~ inBufferZone slotTime b.
Proof.
  induction bookings as [| b' rest IH]; simpl; [ intros _ b [] | ].
  destruct (directlyBooked slotTime slotEndTime b') eqn:E.
  - intros H b [<- | Hin] Hd; [ congruence | now apply IH ].
  - pose proof (bufferTest_zone slotTime b') as Hz.
    destruct ((slotTime >=? subHours (startTime b') BUFFER_HOURS)
              && (slotTime <? startTime b')) eqn:E1; [ discriminate | ].
    destruct ((slotTime >=? endTime b')
              && (slotTime <? addHours (endTime b') BUFFER_HOURS)) eqn:E2;
      [ discriminate | ].
    intros H b [<- | Hin] Hd.
    + intros Hzone. apply Hz in Hzone. discriminate.
    + now apply IH.
Qed.

End SlotClassifier.

Section SlotClaims.

Local Open Scope Z_scope.

(** C2, as stated, fails: the 13:00 slot before a booking from 14:00 to
    16:00 overlaps no booking and is nevertheless flagged as buffer. *)
Lemma no_overlap_claim_fails_in_buffer :
  ~ (forall (slotTime : Date) (bookings : list Booking),
       (forall b, In b bookings -> ~ overlapsSlot slotTime b) ->
       isBooked (checkSlotAvailability slotTime bookings) = false
       /\ isBuffer (checkSlotAvailability slotTime bookings) = false).
Proof.
  intros H.
  destruct (H (addHours jan15 13) [sessionBooking]) as [_ Hbuf].
  - intros b [<- | []]. unfold overlapsSlot. vm_compute.
    intros [Habs _]. discriminate Habs.
  - vm_compute in Hbuf. discriminate Hbuf.
Qed.

(** C2, amended: when every booking ends after it starts and none overlaps
    the slot [[S, S+1h)], the slot is not booked, and it is flagged as
    buffer exactly when its start lies in the hour before or the hour after
    one of the bookings; with no such booking both flags are false. *)
Theorem checkSlotAvailability_no_overlap
  (slotTime : Date) (bookings : list Booking)
  (Hwf : forall b, In b bookings -> wellFormed b)
  (Hfree : forall b, In b bookings -> ~ overlapsSlot slotTime b) :
  isBooked (checkSlotAvailability slotTime bookings) = false
  /\ (isBuffer (checkSlotAvailability slotTime bookings) = true
      <-> exists b, In b bookings /\ inBufferZone slotTime b)
  /\ ((forall b, In b bookings -> ~ inBufferZone slotTime b) ->
      checkSlotAvailability slotTime bookings
      = {| isBooked := false; isBuffer := false; bookingDetails := None |}).
Proof.
  assert (Hnone : bookedPass slotTime (addHours slotTime 1) bookings = None).
  { apply bookedPass_none. intros b Hin.
    destruct (directlyBooked slotTime (addHours slotTime 1) b) eqn:E; [ | reflexivity ].
    apply directlyBooked_overlaps in E; [ | now apply Hwf ].
    now destruct (Hfree b Hin). }
  assert (Hdirect : forall b, In b bookings ->
            directlyBooked slotTime (addHours slotTime 1) b = false).
  { now apply bookedPass_none. }
  unfold checkSlotAvailability. rewrite Hnone.
  destruct (bufferPass slotTime (addHours slotTime 1) bookings) as [b |] eqn:E; simpl.
  - apply bufferPass_some in E. destruct E as (Hin & _ & Hz).
    split; [ reflexivity | split ].
    + split; [ intros _; now exists b | reflexivity ].
    + intros Hno. now destruct (Hno b Hin).
  - split; [ reflexivity | split ].
    + split; [ discriminate | ].
      intros (b & Hin & Hz).
      now destruct (bufferPass_none _ _ _ E b Hin (Hdirect b Hin)).
    + reflexivity.
Qed.

(** The 17:00 slot after the sample booking from 14:00 to 16:00. *)
Lemma checkSlotAvailability_no_overlap_witness :
  isBooked (checkSlotAvailability (addHours jan15 17) [sessionBooking]) = false
  /\ (isBuffer (checkSlotAvailability (addHours jan15 17) [sessionBooking]) = true
      <-> exists b, In b [sessionBooking] /\ inBufferZone (addHours jan15 17) b)
  /\ ((forall b, In b [sessionBooking] -> ~ inBufferZone (addHours jan15 17) b) ->
      checkSlotAvailability (addHours jan15 17) [sessionBooking]
      = {| isBooked := false; isBuffer := false; bookingDetails := None |}).
Proof.
  apply (checkSlotAvailability_no_overlap (addHours jan15 17) [sessionBooking]).
  - intros b [<- | []]. reflexivity.
  - intros b [<- | []] [_ H]. vm_compute in H. discriminate H.
Defined.

(** C6: around a booking from 14:00 to 16:00, with the buffer of one hour,
    the 13:00 slot is buffer, the 14:00 and 15:00 slots are booked, the
    16:00 slot is buffer and the 17:00 slot is free. *)
Theorem buffer_scenario_14_to_16
  (day : Date) (id name : string) (svc ttl : option string) :
  let booking := mkBooking id (addHours day 14) (addHours day 16) name svc ttl in
  BUFFER_HOURS = 1
  /\ checkSlotAvailability (addHours day 13) [booking]
     = {| isBooked := false; isBuffer := true; bookingDetails := Some booking |}
  /\ checkSlotAvailability (addHours day 14) [booking]
     = {| isBooked := true; isBuffer := false; bookingDetails := Some booking |}
  /\ checkSlotAvailability (addHours day 15) [booking]
     = {| isBooked := true; isBuffer := false; bookingDetails := Some booking |}
  /\ checkSlotAvailability (addHours day 16) [booking]
     = {| isBooked := false; isBuffer := true; bookingDetails := Some booking |}
  /\ checkSlotAvailability (addHours day 17) [booking]
     = {| isBooked := false; isBuffer := false; bookingDetails := None |}.
Proof.
  intros booking. split; [ reflexivity | ].
  unfold checkSlotAvailability, bookedPass, bufferPass, directlyBooked.
  subst booking. cbn [startTime endTime].
  unfold subHours, addHours, BUFFER_HOURS, MS_PER_HOUR.
  repeat split; decide_cmp; reflexivity.
Qed.

(** C10: the result of [checkSlotAvailability] never has both flags set,
    and it carries a booking, one of the list, exactly when one of the
    flags is set. *)
Theorem checkSlotAvailability_flags (slotTime : Date) (bookings : list Booking) :
  ~ (isBooked (checkSlotAvailability slotTime bookings) = true
     /\ isBuffer (checkSlotAvailability slotTime bookings) = true)
  /\ ((exists b, bookingDetails (checkSlotAvailability slotTime bookings) = Some b)
      <-> isBooked (checkSlotAvailability slotTime bookings) = true
          \/ isBuffer (checkSlotAvailability slotTime bookings) = true)
  /\ (forall b, bookingDetails (checkSlotAvailability slotTime bookings) = Some b ->
        In b bookings).
Proof.
  unfold checkSlotAvailability.
  destruct (bookedPass slotTime (addHours slotTime 1) bookings) as [b |] eqn:E1;
    [ | destruct (bufferPass slotTime (addHours slotTime 1) bookings) as [b |] eqn:E2 ];
    simpl.
  - apply bookedPass_some in E1. destruct E1 as [Hin _].
    repeat split.
    + intros [_ H]. discriminate H.
    + intros _. now left.
    + intros _. now exists b.
    + intros b' [= <-]. exact Hin.
  - apply bufferPass_some in E2. destruct E2 as [Hin _].
    repeat split.
    + intros [H _]. discriminate H.
    + intros _. now right.
    + intros _. now exists b.
    + intros b' [= <-]. exact Hin.
  - repeat split.
    + intros [H _]. discriminate H.
    + intros [b H]. discriminate H.
    + intros [H | H]; discriminate H.
    + intros b H. discriminate H.
Qed.

End SlotClaims.

(** * The display week *)

Section DisplayWeek.

Local Open Scope Z_scope.

Lemma getDay_range (date : Date) : 0 <= getDay date < 7.
Proof. unfold getDay. apply Z.mod_pos_bound. lia. Qed.

Lemma getDay_addDays (date : Date) (n : Z) :
  getDay (addDays date n) = (getDay date + n) mod 7.
Proof.
  unfold getDay, addDays, MS_PER_DAY.
  rewrite Z.div_add by lia.
  rewrite Zplus_mod_idemp_l. f_equal. lia.
Qed.

Lemma startOfDay_fixed (date : Date) (n : Z) :
  startOfDay (addDays (startOfDay date) n) = addDays (startOfDay date) n.
Proof.
  unfold startOfDay, addDays, MS_PER_DAY.
  pose proof (Z.div_mod date 86400000 ltac:(lia)) as Hd.
  replace (date - date mod 86400000 + n * 86400000)
    with ((date / 86400000 + n) * 86400000) by lia.
  rewrite Z.mod_mul by lia. lia.
Qed.

Lemma getDay_startOfDay (date : Date) : getDay (startOfDay date) = getDay date.
Proof.
  unfold getDay, startOfDay, MS_PER_DAY.
  pose proof (Z.div_mod date 86400000 ltac:(lia)) as Hd.
  replace (date - date mod 86400000) with (date / 86400000 * 86400000) by lia.
  rewrite Z.div_mul by lia. reflexivity.
Qed.

Lemma startOfWeek_monday (date : Date) :
  getDay (startOfWeek date 1) = 1
  /\ startOfDay (startOfWeek date 1) = startOfWeek date 1
  /\ startOfWeek date 1 <= date < startOfWeek date 1 + 7 * MS_PER_DAY.
Proof.
  unfold startOfWeek.
  pose proof (getDay_range date) as Hr.
  set (diff := (if getDay date <? 1 then 7 else 0) + getDay date - 1).
  assert (Hdiff : 0 <= diff < 7 /\ (getDay date - diff) mod 7 = 1).
  { subst diff. destruct (Z.ltb_spec (getDay date) 1).
    - replace (getDay date) with 0 by lia. split; [ lia | reflexivity ].
    - split; [ lia | ].
      replace (getDay date - (0 + getDay date - 1)) with 1 by lia. reflexivity. }
  destruct Hdiff as [Hd Hm].
  split; [ | split ].
  - rewrite getDay_startOfDay, getDay_addDays.
    replace (getDay date + - diff) with (getDay date - diff) by lia. exact Hm.
  - unfold startOfDay at 1 2. unfold startOfDay, addDays, MS_PER_DAY.
    pose proof (Z.mod_pos_bound (date + - diff * 86400000) 86400000 ltac:(lia)).
    pose proof (Z.div_mod (date + - diff * 86400000) 86400000 ltac:(lia)) as Hq.
    replace (date + - diff * 86400000 - (date + - diff * 86400000) mod 86400000)
      with ((date + - diff * 86400000) / 86400000 * 86400000) by lia.
    rewrite Z.mod_mul by lia. lia.
  - unfold startOfDay, addDays, MS_PER_DAY.
    pose proof (Z.mod_pos_bound (date + - diff * 86400000) 86400000 ltac:(lia)).
    split; [ lia | ].
    (* the time of day of [date] is kept by [addDays] *)
    replace (date + - diff * 86400000) with (date + (- diff) * 86400000) by lia.
    rewrite Z.mod_add by lia.
    pose proof (Z.mod_pos_bound date 86400000 ltac:(lia)). lia.
Qed.

(** C9: [getWeekDates] returns six dates, the consecutive midnights from
    the Monday to the Saturday of the Monday-first week that holds the
    reference instant; none is a Sunday. *)
Theorem getWeekDates_monday_to_saturday (currentDate : Date) :
  let monday := startOfWeek currentDate 1 in
  List.length (getWeekDates currentDate) = 6%nat
  /\ getWeekDates currentDate
     = [monday; addDays monday 1; addDays monday 2; addDays monday 3;
        addDays monday 4; addDays monday 5]
  /\ List.map getDay (getWeekDates currentDate) = [1; 2; 3; 4; 5; 6]
  /\ (forall d, In d (getWeekDates currentDate) ->
        startOfDay d = d /\ getDay d <> 0)
  /\ monday <= currentDate < addDays monday 7.
Proof.
  intros monday.
  destruct (startOfWeek_monday currentDate) as (Hday & Hmid & Hweek).
  fold monday in Hday, Hmid, Hweek.
  assert (Hlist : getWeekDates currentDate
     = [monday; addDays monday 1; addDays monday 2; addDays monday 3;
        addDays monday 4; addDays monday 5]).
  { unfold getWeekDates. cbv zeta. fold monday.
    cbn [seq List.map Z.of_nat Pos.of_succ_nat Pos.succ].
    f_equal. unfold addDays. lia. }
  assert (Hdays : List.map getDay (getWeekDates currentDate) = [1; 2; 3; 4; 5; 6]).
  { rewrite Hlist. cbn [List.map]. rewrite !getDay_addDays, Hday. reflexivity. }
  split; [ now rewrite Hlist | ].
  split; [ exact Hlist | ].
  split; [ exact Hdays | ].
  split; [ | unfold addDays; lia ].
  intros d Hin. split.
  - rewrite Hlist in Hin. cbn [In] in Hin.
    destruct Hin as [<- | [<- | [<- | [<- | [<- | [<- | []]]]]]];
      [ exact Hmid | rewrite <- Hmid; apply startOfDay_fixed .. ].
  - assert (Hin' : In (getDay d) (List.map getDay (getWeekDates currentDate))).
    { now apply in_map. }
    rewrite Hdays in Hin'. cbn [In] in Hin'. lia.
Qed.

End DisplayWeek.

(** * Rate resolution and project cost *)

Section Pricing.

Local Open Scope Q_scope.

Lemma Qgeb_true (a b : Q) : Qgeb a b = true <-> b <= a.
Proof. unfold Qgeb. apply Qle_bool_iff. Qed.

Lemma Qgeb_false (a b : Q) : Qgeb a b = false <-> a < b.
Proof.
  unfold Qgeb. rewrite <- not_true_iff_false, Qle_bool_iff.
  split; [ apply Qnot_le_lt | apply Qlt_not_le ].
Qed.

Lemma Qgeb_compat (a a' b : Q) : a == a' -> Qgeb a b = Qgeb a' b.
Proof. intros H. unfold Qgeb. now rewrite H. Qed.

Lemma tieredRate_compat (h h' : Q) : h == h' -> tieredRate h = tieredRate h'.
Proof.
  intros H. unfold tieredRate.
  now rewrite (Qgeb_compat h h' 40 H), (Qgeb_compat h h' 20 H), (Qgeb_compat h h' 10 H).
Qed.

Lemma getProjectPricePerHour_compat (project : ProjectDocument) (h h' : Q) :
  h == h' -> getProjectPricePerHour project h = getProjectPricePerHour project h'.
Proof.
  intros H. unfold getProjectPricePerHour.
  destruct (billingType project), (customRate project);
    auto using tieredRate_compat.
Qed.

(** The ladder, case by case. *)
Lemma tieredRate_cases (h : Q) :
  (40 <= h /\ tieredRate h = 160)
  \/ (20 <= h /\ h < 40 /\ tieredRate h = 230)
  \/ (10 <= h /\ h < 20 /\ tieredRate h = 260)
  \/ (h < 10 /\ tieredRate h = 350).
Proof.
  unfold tieredRate.
  destruct (Qgeb h 40) eqn:E40; [ apply Qgeb_true in E40; auto | ].
  apply Qgeb_false in E40.
  destruct (Qgeb h 20) eqn:E20; [ apply Qgeb_true in E20; auto | ].
  apply Qgeb_false in E20.
  destruct (Qgeb h 10) eqn:E10; [ apply Qgeb_true in E10; auto 6 | ].
  apply Qgeb_false in E10. auto 6.
Qed.

Lemma tieredRate_packageRate (h : Q) : packageRate h (tieredRate h).
Proof.
  unfold packageRate.
  destruct (tieredRate_cases h)
    as [(H1 & ->) | [(H1 & H2 & ->) | [(H1 & H2 & ->) | (H1 & ->)]]];
    repeat split; intros; try reflexivity; exfalso; lra.
Qed.

Lemma tieredRate_antitone (h h' : Q) : h <= h' -> tieredRate h' <= tieredRate h.
Proof.
  intros Hle.
  destruct (tieredRate_cases h)
    as [(H1 & ->) | [(H1 & H2 & ->) | [(H1 & H2 & ->) | (H1 & ->)]]];
  destruct (tieredRate_cases h')
    as [(H1' & ->) | [(H1' & H2' & ->) | [(H1' & H2' & ->) | (H1' & ->)]]];
  lra.
Qed.

(** C1, as stated, fails: a custom project without a rate is not resolved
    to 0 by [getProjectPricePerHour]. *)
Lemma custom_without_rate_not_zero :
  ~ (forall (project : ProjectDocument) (h : Q),
       billingType project = personalizado -> customRate project = None ->
       getProjectPricePerHour project h == 0).
Proof.
  intros H.
  specialize (H customProjectNoRate 0 eq_refl eq_refl).
  vm_compute in H. discriminate H.
Qed.

(** C1, amended: for a custom project whose custom rate is absent,
    [getProjectPricePerHour] resolves the tier rate of the cumulative hours
    passed in (350, 260, 230 or 160, never 0); 0 is what
    [getPricePerHourForProject], which takes no hours, resolves for it. *)
Theorem custom_without_rate_is_tiered
  (project : ProjectDocument) (h : Q)
  (Hcustom : billingType project = personalizado)
  (Hnone : customRate project = None) :
  getProjectPricePerHour project h = tieredRate h
  /\ packageRate h (getProjectPricePerHour project h)
  /\ ~ getProjectPricePerHour project h == 0
  /\ getPricePerHourForProject (Some project) = 0.
Proof.
  assert (E : getProjectPricePerHour project h = tieredRate h).
  { unfold getProjectPricePerHour. now rewrite Hcustom, Hnone. }
  split; [ exact E | ].
  split; [ rewrite E; apply tieredRate_packageRate | ].
  split.
  - rewrite E.
    destruct (tieredRate_cases h)
      as [(_ & ->) | [(_ & _ & ->) | [(_ & _ & ->) | (_ & ->)]]];
      intros Hz; vm_compute in Hz; discriminate Hz.
  - unfold getPricePerHourForProject. now rewrite Hcustom, Hnone.
Qed.

(** The sample custom project without a rate, at 12 cumulative hours. *)
Lemma custom_without_rate_is_tiered_witness :
  getProjectPricePerHour customProjectNoRate 12 = tieredRate 12
  /\ packageRate 12 (getProjectPricePerHour customProjectNoRate 12)
  /\ ~ getProjectPricePerHour customProjectNoRate 12 == 0
  /\ getPricePerHourForProject (Some customProjectNoRate) = 0.
Proof.
  apply (custom_without_rate_is_tiered customProjectNoRate 12); reflexivity.
Defined.

(** C3, as stated, fails on one of its values: at 39 cumulative hours the
    rate of a package project is 230, not 350. *)
Lemma package_rate_at_39_is_not_350 :
  ~ (forall project : ProjectDocument,
       billingType project = pacote ->
       getProjectPricePerHour project 39 == 350).
Proof.
  intros H. specialize (H packageProject eq_refl).
  vm_compute in H. discriminate H.
Qed.

(** C3, amended: for a package project the rate is the step function of the
    cumulative hours with inclusive lower bounds, 160 from 40 h, 230 from
    20 h, 260 from 10 h and 350 below; in particular rate(39)=230,
    rate(40)=160, rate(9.9)=350, rate(10)=260, rate(20)=230, and the rate
    never increases with the hours. *)
Theorem package_rate_step_function
  (project : ProjectDocument) (h : Q)
  (Hpackage : billingType project = pacote) :
  packageRate h (getProjectPricePerHour project h)
  /\ getProjectPricePerHour project 39 = 230
  /\ getProjectPricePerHour project 40 = 160
  /\ getProjectPricePerHour project 9.9 = 350
  /\ getProjectPricePerHour project 10 = 260
  /\ getProjectPricePerHour project 20 = 230
  /\ (forall h' : Q, h <= h' ->
        getProjectPricePerHour project h' <= getProjectPricePerHour project h).
Proof.
  assert (E : forall x, getProjectPricePerHour project x = tieredRate x).
  { intros x. unfold getProjectPricePerHour. now rewrite Hpackage. }
  rewrite !E.
  split; [ apply tieredRate_packageRate | ].
  repeat (split; [ reflexivity | ]).
  intros h' Hle. rewrite E. now apply tieredRate_antitone.
Qed.

(** The sample package project, at 25 cumulative hours. *)
Lemma package_rate_step_function_witness :
  packageRate 25 (getProjectPricePerHour packageProject 25)
  /\ getProjectPricePerHour packageProject 39 = 230
  /\ getProjectPricePerHour packageProject 40 = 160
  /\ getProjectPricePerHour packageProject 9.9 = 350
  /\ getProjectPricePerHour packageProject 10 = 260
  /\ getProjectPricePerHour packageProject 20 = 230
  /\ (forall h' : Q, 25 <= h' ->
        getProjectPricePerHour packageProject h'
        <= getProjectPricePerHour packageProject 25).
Proof.
  apply (package_rate_step_function packageProject 25). reflexivity.
Defined.

(** The loop sum of [reduce] is the sum of the list. *)
Lemma reduceSum_from {A : Type} (f : A -> Q) (xs : list A) (acc : Q) :
  fold_left (fun sum x => sum + f x) xs acc == acc + Qsum (List.map f xs).
Proof.
  revert acc. induction xs as [| x xs IH]; intros acc; simpl.
  - ring.
  - rewrite IH. ring.
Qed.

Lemma reduceSum_Qsum {A : Type} (f : A -> Q) (xs : list A) :
  reduceSum f xs == Qsum (List.map f xs).
Proof. unfold reduceSum. rewrite reduceSum_from. ring. Qed.

(** C7: [calculateProjectCost] returns the absent result exactly when the
    project is absent, and a metric for every present project; it is a
    total function, the absence is its only failure signal. *)
Theorem calculateProjectCost_null_iff_absent
  (projectBookings : list BookingDocument) (project : option ProjectDocument) :
  (calculateProjectCost projectBookings project = None <-> project = None)
  /\ (forall p : ProjectDocument,
        exists m : ProjectCostMetrics,
          calculateProjectCost projectBookings (Some p) = Some m).
Proof.
  split.
  - destruct project as [p |]; simpl; split; intros H;
      try reflexivity; discriminate H.
  - intros p. simpl. eexists. reflexivity.
Qed.

End Pricing.

(** * Dictionaries and grouping *)

Section Grouping.

Context {V : Type} (key : V -> string).

Local Open Scope Q_scope.

Lemma pushTo_keys_old (k : string) (x : V) (d : Dict (list V)) :
  In k (List.map fst d) -> List.map fst (pushTo k x d) = List.map fst d.
Proof.
  induction d as [| [k0 vs] d IH]; simpl; [ intros [] | ].
  destruct (String.eqb_spec k0 k) as [-> | Hne]; simpl; [ reflexivity | ].
  intros [H | H]; [ congruence | ]. now rewrite IH.
Qed.

Lemma pushTo_keys_new (k : string) (x : V) (d : Dict (list V)) :
  ~ In k (List.map fst d) -> List.map fst (pushTo k x d) = List.map fst d ++ [k].
Proof.
  induction d as [| [k0 vs] d IH]; simpl; [ reflexivity | ].
  intros Hnot.
  destruct (String.eqb_spec k0 k) as [-> | Hne]; simpl.
  - destruct Hnot. now left.
  - rewrite IH; [ reflexivity | ]. intros H. apply Hnot. now right.
Qed.

Lemma pushTo_In (k : string) (x : V) (d : Dict (list V)) (k' : string) (vs' : list V) :
  List.NoDup (List.map fst d) ->
  In (k', vs') (pushTo k x d) ->
  (k' <> k /\ In (k', vs') d)
  \/ (k' = k /\ ((exists vs, In (k, vs) d /\ vs' = vs ++ [x])
                \/ (~ In k (List.map fst d) /\ vs' = [x]))).
Proof.
  induction d as [| [k0 vs] d IH]; simpl; intros Hnd Hin.
  - destruct Hin as [[= <- <-] | []]. right. split; [ reflexivity | ]. right. tauto.
  - apply List.NoDup_cons_iff in Hnd. destruct Hnd as [Hfresh Hnd].
    destruct (String.eqb_spec k0 k) as [-> | Hne].
    + destruct Hin as [[= <- <-] | Hin].
      * right. split; [ reflexivity | ]. left. exists vs. auto.
      * left. split; [ | now right ].
        intros ->. apply Hfresh. now apply (in_map fst) in Hin.
    + destruct Hin as [[= <- <-] | Hin].
      * left. auto.
      * destruct (IH Hnd Hin) as [[Hk Hd] | [-> [(vs0 & Hd & ->) | [Hnot ->]]]].
        -- left. auto.
        -- right. split; [ reflexivity | ]. left. exists vs0. auto.
        -- right. split; [ reflexivity | ]. right. split; [ | reflexivity ].
           intros [H | H]; [ congruence | contradiction ].
Qed.

Lemma filter_none (p : V -> bool) (xs : list V) :
  (forall x, In x xs -> p x = false) -> List.filter p xs = [].
Proof.
  induction xs as [| x xs IH]; simpl; intros H; [ reflexivity | ].
  rewrite (H x (or_introl eq_refl)). apply IH. intros y Hy. apply H. now right.
Qed.

Lemma GroupsOf_push (d : Dict (list V)) (xs : list V) (x : V) :
  GroupsOf key d xs -> GroupsOf key (pushTo (key x) x d) (xs ++ [x]).
Proof.
  intros (Hnd & Hval & Hcov).
  assert (Hkeys : forall k, In k (List.map fst d) ->
                   In k (List.map fst (pushTo (key x) x d))).
  { intros k Hk. destruct (in_dec string_dec (key x) (List.map fst d)) as [Hin | Hnot].
    - now rewrite pushTo_keys_old.
    - rewrite pushTo_keys_new by assumption. apply in_or_app. now left. }
  split; [ | split ].
  - destruct (in_dec string_dec (key x) (List.map fst d)) as [Hin | Hnot].
    + now rewrite pushTo_keys_old.
    + rewrite pushTo_keys_new by assumption.
      apply (Permutation_NoDup (l := key x :: List.map fst d)).
      * apply Permutation_cons_append.
      * now constructor.
  - intros k vs Hin.
    rewrite List.filter_app. simpl.
    destruct (pushTo_In _ _ _ _ _ Hnd Hin)
      as [[Hk Hd] | [-> [(vs0 & Hd & ->) | [Hnot ->]]]].
    + destruct (Hval _ _ Hd) as [-> Hne].
      destruct (String.eqb_spec (key x) k) as [E | _]; [ congruence | ].
      now rewrite app_nil_r.
    + destruct (Hval _ _ Hd) as [-> Hne].
      rewrite String.eqb_refl. split; [ reflexivity | ].
      intros H. now apply app_eq_nil in H.
    + rewrite String.eqb_refl. split; [ | discriminate ].
      rewrite filter_none; [ reflexivity | ].
      intros y Hy. destruct (String.eqb_spec (key y) (key x)) as [E | _];
        [ | reflexivity ].
      destruct Hnot. rewrite <- E. now apply Hcov.
  - intros y Hy. apply in_app_or in Hy. destruct Hy as [Hy | [<- | []]].
    + apply Hkeys. now apply Hcov.
    + destruct (in_dec string_dec (key x) (List.map fst d)) as [Hin | Hnot].
      * now rewrite pushTo_keys_old.
      * rewrite pushTo_keys_new by assumption. apply in_or_app. right. now left.
Qed.

Lemma GroupsOf_fold (xs : list V) (d : Dict (list V)) (xs0 : list V) :
  GroupsOf key d xs0 ->
  GroupsOf key (fold_left (fun d x => pushTo (key x) x d) xs d) (xs0 ++ xs).
Proof.
  revert d xs0. induction xs as [| x xs IH]; intros d xs0 H; simpl.
  - now rewrite app_nil_r.
  - replace (xs0 ++ x :: xs) with ((xs0 ++ [x]) ++ xs)
      by (now rewrite <- app_assoc).
    apply IH. now apply GroupsOf_push.
Qed.

Lemma GroupsOf_groupBy (xs : list V) : GroupsOf key (groupBy key xs) xs.
Proof.
  unfold groupBy. apply (GroupsOf_fold xs [] []).
  split; [ constructor | split ]; intros; contradiction.
Qed.

Lemma GroupsOf_Permutation (d d' : Dict (list V)) (xs : list V) :
  Permutation d d' -> GroupsOf key d xs -> GroupsOf key d' xs.
Proof.
  intros Hp (Hnd & Hval & Hcov). split; [ | split ].
  - apply (Permutation_NoDup (l := List.map fst d)); [ | assumption ].
    now apply Permutation_map.
  - intros k vs Hin. apply Hval.
    apply (Permutation_in (l := d')); [ now symmetry | assumption ].
  - intros x Hx.
    apply (Permutation_in (l := List.map fst d)); [ now apply Permutation_map | auto ].
Qed.

End Grouping.

Section ForIn.

Context {V : Type}.

Lemma insertByIndex_Permutation (e : N * (string * V)) (l : list (N * (string * V))) :
  Permutation (insertByIndex e l) (e :: l).
Proof.
  induction l as [| e' l IH]; simpl; [ reflexivity | ].
  destruct (fst e <=? fst e')%N; [ reflexivity | ].
  rewrite IH. apply perm_swap.
Qed.

Lemma sortByIndex_Permutation (l : list (N * (string * V))) :
  Permutation (sortByIndex l) l.
Proof.
  induction l as [| e l IH]; simpl; [ reflexivity | ].
  rewrite insertByIndex_Permutation. now constructor.
Qed.

Lemma forInEntries_Permutation (d : Dict V) : Permutation (forInEntries d) d.
Proof.
  unfold forInEntries.
  rewrite (Permutation_map snd (sortByIndex_Permutation (indexEntries d))).
  induction d as [| e d IH]; simpl; [ reflexivity | ].
  destruct (arrayIndex (fst e)); simpl.
  - now constructor.
  - rewrite <- Permutation_middle. now constructor.
Qed.

End ForIn.

(** * Sums over groups *)

Section Sums.

Local Open Scope Q_scope.

Lemma Qsum_ext_in {A : Type} (f g : A -> Q) (xs : list A) :
  (forall x, In x xs -> f x == g x) ->
  Qsum (List.map f xs) == Qsum (List.map g xs).
Proof.
  induction xs as [| x xs IH]; simpl; intros H; [ reflexivity | ].
  rewrite (H x (or_introl eq_refl)), IH; [ reflexivity | ].
  intros y Hy. apply H. now right.
Qed.

Lemma Qsum_filter_split {A : Type} (f : A -> Q) (p : A -> bool) (xs : list A) :
  Qsum (List.map f xs)
  == Qsum (List.map f (List.filter p xs))
     + Qsum (List.map f (List.filter (fun x => negb (p x)) xs)).
Proof.
  induction xs as [| x xs IH]; simpl; [ reflexivity | ].
  destruct (p x); simpl; rewrite IH; ring.
Qed.

Lemma Qsum_scale {A : Type} (f : A -> Q) (c : Q) (xs : list A) :
  Qsum (List.map (fun x => f x * c) xs) == Qsum (List.map f xs) * c.
Proof.
  induction xs as [| x xs IH]; simpl; [ ring | ]. rewrite IH. ring.
Qed.

Lemma Qsum_zero {A : Type} (xs : list A) : Qsum (List.map (fun _ => 0) xs) == 0.
Proof. induction xs as [| x xs IH]; simpl; [ reflexivity | ]. rewrite IH. ring. Qed.

Lemma filter_other_key {V : Type} (key : V -> string) (k k' : string) (xs : list V) :
  k' <> k ->
  List.filter (fun x => String.eqb (key x) k')
    (List.filter (fun x => negb (String.eqb (key x) k)) xs)
  = List.filter (fun x => String.eqb (key x) k') xs.
Proof.
  intros Hne. induction xs as [| x xs IH]; simpl; [ reflexivity | ].
  destruct (String.eqb_spec (key x) k) as [E | E]; simpl.
  - destruct (String.eqb_spec (key x) k') as [E' | _]; [ congruence | exact IH ].
  - now rewrite IH.
Qed.

(** Summing group by group is summing over the grouped list. *)
Lemma GroupsOf_sum {V : Type} (key : V -> string) (f : V -> Q)
  (d : Dict (list V)) (xs : list V) :
  GroupsOf key d xs ->
  Qsum (List.map (fun e => Qsum (List.map f (snd e))) d) == Qsum (List.map f xs).
Proof.
  revert xs. induction d as [| [k vs] d IH]; intros xs (Hnd & Hval & Hcov); simpl.
  - destruct xs as [| x xs]; [ reflexivity | ].
    destruct (Hcov x (or_introl eq_refl)).
  - apply List.NoDup_cons_iff in Hnd. destruct Hnd as [Hfresh Hnd].
    destruct (Hval k vs (or_introl eq_refl)) as [Hvs _].
    rewrite (Qsum_filter_split f (fun x => String.eqb (key x) k) xs), <- Hvs.
    rewrite (IH (List.filter (fun x => negb (String.eqb (key x) k)) xs));
      [ reflexivity | ].
    split; [ assumption | split ].
    + intros k' vs' Hin.
      destruct (Hval k' vs' (or_intror Hin)) as [-> Hne].
      split; [ | assumption ].
      symmetry. apply filter_other_key.
      intros ->. apply Hfresh. now apply (in_map fst) in Hin.
    + intros x Hx. apply filter_In in Hx. destruct Hx as [Hx Hk].
      destruct (Hcov x Hx) as [E | Hin]; [ | assumption ].
      simpl in E. rewrite <- E, String.eqb_refl in Hk. discriminate Hk.
Qed.

Lemma GroupsOf_key {V : Type} (key : V -> string)
  (d : Dict (list V)) (xs : list V) (k : string) (vs : list V) (x : V) :
  GroupsOf key d xs -> In (k, vs) d -> In x vs -> key x = k.
Proof.
  intros (_ & Hval & _) Hin Hx.
  destruct (Hval k vs Hin) as [-> _].
  apply filter_In in Hx. destruct Hx as [_ Hx]. now apply String.eqb_eq.
Qed.

End Sums.

(** * The metrics of one client *)

Section ClientMetrics.

Local Open Scope Q_scope.

Variable allBookingDocuments : list BookingDocument.
Variable allProjects : list ProjectDocument.

Lemma projectStep_adds (h a : Q) (group : string * list BookingDocument) :
  fst (projectStep allBookingDocuments allProjects (h, a) group)
  == h + groupHours allProjects group
  /\ snd (projectStep allBookingDocuments allProjects (h, a) group)
     == a + groupAmount allBookingDocuments allProjects group.
Proof.
  destruct group as [pid vs].
  unfold projectStep, groupHours, groupAmount, calculateProjectCost.
  cbn [fst snd].
  destruct (findProject allProjects pid); cbn [fst snd pricePerHour];
    split; ring.
Qed.

Lemma fold_projectStep (groups : Dict (list BookingDocument)) (h a : Q) :
  fst (fold_left (projectStep allBookingDocuments allProjects) groups (h, a))
  == h + Qsum (List.map (groupHours allProjects) groups)
  /\ snd (fold_left (projectStep allBookingDocuments allProjects) groups (h, a))
     == a + Qsum (List.map (groupAmount allBookingDocuments allProjects) groups).
Proof.
  revert h a. induction groups as [| g groups IH]; intros h a;
    cbn [fold_left List.map].
  - cbn [fst snd]. unfold Qsum, fold_right. split; ring.
  - destruct (projectStep_adds h a g) as (Hh & Ha).
    destruct (projectStep allBookingDocuments allProjects (h, a) g) as [h1 a1].
    cbn [fst snd] in Hh, Ha.
    destruct (IH h1 a1) as [IHh IHa].
    rewrite IHh, IHa, Hh, Ha. change (Qsum (?x :: ?l)) with (x + Qsum l).
    split; ring.
Qed.

Lemma lifetimeHours_reduceSum (pid : string) :
  reduceSum duration
    (List.filter (fun b => String.eqb (projectId b) pid) allBookingDocuments)
  == lifetimeHours allBookingDocuments pid.
Proof. apply reduceSum_Qsum. Qed.

Lemma groupHours_billed (pid : string) (vs : list BookingDocument) :
  (forall b, In b vs -> projectId b = pid) ->
  groupHours allProjects (pid, vs)
  == Qsum (List.map (billedHours allBookingDocuments allProjects) vs).
Proof.
  intros Hkey. unfold groupHours. cbn [fst snd].
  rewrite (Qsum_ext_in (billedHours allBookingDocuments allProjects)
             (fun b => match findProject allProjects pid with
                       | Some _ => duration b
                       | None => 0
                       end)).
  - destruct (findProject allProjects pid).
    + apply reduceSum_Qsum.
    + now rewrite Qsum_zero.
  - intros b Hb. unfold billedHours, lifetimeRate. rewrite (Hkey b Hb).
    now destruct (findProject allProjects pid).
Qed.

Lemma groupAmount_billed (pid : string) (vs : list BookingDocument) :
  (forall b, In b vs -> projectId b = pid) ->
  groupAmount allBookingDocuments allProjects (pid, vs)
  == Qsum (List.map (billedAmount allBookingDocuments allProjects) vs).
Proof.
  intros Hkey. unfold groupAmount. cbn [fst snd].
  rewrite (Qsum_ext_in (billedAmount allBookingDocuments allProjects)
             (fun b => match findProject allProjects pid with
                       | Some project =>
                           duration b
                           * getProjectPricePerHour project
                               (lifetimeHours allBookingDocuments pid)
                       | None => 0
                       end)).
  - destruct (findProject allProjects pid) as [project |].
    + rewrite Qsum_scale, reduceSum_Qsum.
      now rewrite (getProjectPricePerHour_compat project _ _
                     (lifetimeHours_reduceSum pid)).
    + now rewrite Qsum_zero.
  - intros b Hb. unfold billedAmount, lifetimeRate. rewrite (Hkey b Hb).
    now destruct (findProject allProjects pid).
Qed.

(** The metrics of a client, from the bookings of its month. *)
Lemma clientMetrics_sums (bookingsOfClient : list BookingDocument) :
  let m := clientMetrics allBookingDocuments allProjects bookingsOfClient in
  totalHours m
  == Qsum (List.map (billedHours allBookingDocuments allProjects) bookingsOfClient)
  /\ totalAmount m
     == Qsum (List.map (billedAmount allBookingDocuments allProjects) bookingsOfClient)
  /\ pricePerHour m
     = (if Qgtb (totalHours m) 0 then totalAmount m / totalHours m else 0).
Proof.
  intros m. subst m. unfold clientMetrics.
  pose proof (GroupsOf_Permutation projectId _ _ bookingsOfClient
                (Permutation_sym (forInEntries_Permutation
                                    (groupBy projectId bookingsOfClient)))
                (GroupsOf_groupBy projectId bookingsOfClient)) as Hg.
  set (groups := forInEntries (groupBy projectId bookingsOfClient)) in *.
  destruct (fold_projectStep groups 0 0) as [Hh Ha].
  destruct (fold_left (projectStep allBookingDocuments allProjects) groups (0, 0))
    as [h a].
  cbn [fst snd totalHours totalAmount pricePerHour] in *.
  split; [ | split; [ | reflexivity ] ].
  - rewrite Hh, Qplus_0_l.
    rewrite <- (GroupsOf_sum projectId _ groups bookingsOfClient Hg).
    apply Qsum_ext_in. intros [pid vs] Hin. cbn [snd].
    apply groupHours_billed. intros b Hb.
    exact (GroupsOf_key projectId _ _ _ _ _ Hg Hin Hb).
  - rewrite Ha, Qplus_0_l.
    rewrite <- (GroupsOf_sum projectId _ groups bookingsOfClient Hg).
    apply Qsum_ext_in. intros [pid vs] Hin. cbn [snd].
    apply groupAmount_billed. intros b Hb.
    exact (GroupsOf_key projectId _ _ _ _ _ Hg Hin Hb).
Qed.

End ClientMetrics.

(** * The monthly recipe *)

Section Recipe.

Local Open Scope Q_scope.

Variable allBookingDocuments : list BookingDocument.
Variable allProjects : list ProjectDocument.
Variable allClients : list ClientDocument.
Variable targetDateForMonth : Date.

Lemma findClient_some (cid : string) (client : ClientDocument) :
  findClient allClients cid = Some client ->
  In client allClients /\ client_id client = cid.
Proof.
  unfold findClient. intros H. apply find_some in H.
  destruct H as [Hin Heq]. split; [ assumption | now apply String.eqb_eq ].
Qed.

Lemma fold_clientStep_keeps
  (entries : Dict (list BookingDocument))
  (acc : gmap string ClientMonthlyMetrics) (name : string) :
  is_Some (acc !! name) ->
  is_Some (fold_left (clientStep allBookingDocuments allProjects allClients)
             entries acc !! name).
Proof.
  revert acc. induction entries as [| [cid bs] entries IH]; intros acc H;
    cbn [fold_left]; [ assumption | ].
  apply IH. unfold clientStep.
  destruct (findClient allClients cid) as [client |]; [ | assumption ].
  destruct (decide (client_name client = name)) as [-> | Hne].
  - rewrite lookup_insert_eq. eauto.
  - now rewrite lookup_insert_ne.
Qed.

Lemma fold_clientStep_writes
  (entries : Dict (list BookingDocument))
  (acc : gmap string ClientMonthlyMetrics)
  (cid : string) (bs : list BookingDocument) (client : ClientDocument) :
  In (cid, bs) entries ->
  findClient allClients cid = Some client ->
  is_Some (fold_left (clientStep allBookingDocuments allProjects allClients)
             entries acc !! client_name client).
Proof.
  revert acc. induction entries as [| e entries IH]; intros acc Hin Hfind;
    [ contradiction | ].
  cbn [fold_left]. destruct Hin as [-> | Hin]; [ | now apply IH ].
  apply fold_clientStep_keeps. unfold clientStep. rewrite Hfind.
  rewrite lookup_insert_eq. eauto.
Qed.

Lemma fold_clientStep_origin
  (entries : Dict (list BookingDocument))
  (acc : gmap string ClientMonthlyMetrics)
  (name : string) (m : ClientMonthlyMetrics) :
  fold_left (clientStep allBookingDocuments allProjects allClients) entries acc
    !! name = Some m ->
  acc !! name = Some m
  \/ exists cid bs client,
       In (cid, bs) entries
       /\ findClient allClients cid = Some client
       /\ client_name client = name
       /\ m = clientMetrics allBookingDocuments allProjects bs.
Proof.
  revert acc. induction entries as [| [cid bs] entries IH]; intros acc H;
    cbn [fold_left] in H; [ now left | ].
  destruct (IH _ H) as [Hacc | (cid' & bs' & client & Hin & Hfind & Hname & Hm)].
  - unfold clientStep in Hacc.
    destruct (findClient allClients cid) as [client |] eqn:Hfind; [ | now left ].
    destruct (decide (client_name client = name)) as [Hname | Hne].
    + rewrite Hname, lookup_insert_eq in Hacc. injection Hacc as <-.
      right. exists cid, bs, client. repeat split; auto. now left.
    + rewrite lookup_insert_ne in Hacc by assumption. now left.
  - right. exists cid', bs', client. repeat split; auto. now right.
Qed.

Lemma clientEntries_groups :
  GroupsOf clientId
    (forInEntries
       (groupBy clientId (monthlyBookingsOf allBookingDocuments targetDateForMonth)))
    (monthlyBookingsOf allBookingDocuments targetDateForMonth).
Proof.
  apply (GroupsOf_Permutation clientId
           (groupBy clientId (monthlyBookingsOf allBookingDocuments targetDateForMonth))).
  - symmetry. apply forInEntries_Permutation.
  - apply GroupsOf_groupBy.
Qed.

(** Every entry of the recipe is the metrics of a client that is found, over
    the bookings of its month. *)
Lemma recipe_origin (name : string) (m : ClientMonthlyMetrics) :
  calculateMonthlyClientMetrics allBookingDocuments allProjects allClients
    targetDateForMonth !! name = Some m ->
  exists client,
    findClient allClients (client_id client) = Some client
    /\ client_name client = name
    /\ clientMonthlyBookings allBookingDocuments targetDateForMonth (client_id client)
       <> []
    /\ m = clientMetrics allBookingDocuments allProjects
             (clientMonthlyBookings allBookingDocuments targetDateForMonth
                (client_id client)).
Proof.
  unfold calculateMonthlyClientMetrics. intros H.
  apply fold_clientStep_origin in H.
  destruct H as [H | (cid & bs & client & Hin & Hfind & Hname & Hm)].
  - rewrite lookup_empty in H. discriminate H.
  - destruct clientEntries_groups as (_ & Hval & _).
    destruct (Hval cid bs Hin) as [Hbs Hne].
    destruct (findClient_some _ _ Hfind) as [_ Hid].
    exists client. rewrite Hid. unfold clientMonthlyBookings.
    rewrite <- Hbs. auto.
Qed.

(** A client that is found and has bookings in the month has an entry. *)
Lemma recipe_entry (client : ClientDocument) (b : BookingDocument) :
  In b (monthlyBookingsOf allBookingDocuments targetDateForMonth) ->
  findClient allClients (clientId b) = Some client ->
  is_Some (calculateMonthlyClientMetrics allBookingDocuments allProjects allClients
             targetDateForMonth !! client_name client).
Proof.
  intros Hb Hfind. unfold calculateMonthlyClientMetrics.
  destruct clientEntries_groups as (_ & _ & Hcov).
  specialize (Hcov b Hb). apply in_map_iff in Hcov.
  destruct Hcov as ([cid bs] & Hcid & Hin). simpl in Hcid. subst cid.
  now apply (fold_clientStep_writes _ _ (clientId b) bs client).
Qed.

End Recipe.

Lemma distinct_names (clients : list ClientDocument) (c1 c2 : ClientDocument) :
  List.NoDup (List.map client_name clients) ->
  In c1 clients -> In c2 clients ->
  client_name c1 = client_name c2 -> c1 = c2.
Proof.
  induction clients as [| c cs IH]; simpl; intros Hnd H1 H2 Hname;
    [ contradiction | ].
  apply List.NoDup_cons_iff in Hnd. destruct Hnd as [Hfresh Hnd].
  destruct H1 as [<- | H1], H2 as [<- | H2]; auto.
  - destruct Hfresh. rewrite Hname. now apply in_map.
  - destruct Hfresh. rewrite <- Hname. now apply in_map.
Qed.

(** * More on the slot classifier *)

Section SlotFlags.

Local Open Scope Z_scope.

Lemma bookedPass_first (slotTime slotEndTime : Date) (bookings : list Booking)
  (b : Booking) :
  bookedPass slotTime slotEndTime bookings = Some b ->
  exists l1 l2,
    bookings = l1 ++ b :: l2
    /\ directlyBooked slotTime slotEndTime b = true
    /\ forall x, In x l1 -> directlyBooked slotTime slotEndTime x = false.
Proof.
  induction bookings as [| b' rest IH]; simpl; [ discriminate | ].
  destruct (directlyBooked slotTime slotEndTime b') eqn:E.
  - intros [= <-]. exists [], rest. repeat split; auto. intros x [].
  - intros H. destruct (IH H) as (l1 & l2 & -> & Hb & Hl1).
    exists (b' :: l1), l2. repeat split; auto.
    intros x [<- | Hx]; auto.
Qed.

Lemma bufferPass_first (slotTime slotEndTime : Date) (bookings : list Booking)
  (b : Booking) :
  (forall x, In x bookings -> directlyBooked slotTime slotEndTime x = false) ->
  bufferPass slotTime slotEndTime bookings = Some b ->
  exists l1 l2,
    bookings = l1 ++ b :: l2
    /\ inBufferZone slotTime b
    /\ forall x, In x l1 -> ~ inBufferZone slotTime x.
Proof.
  induction bookings as [| b' rest IH]; simpl; [ discriminate | ].
  intros Hfree.
  rewrite (Hfree b' (or_introl eq_refl)).
  pose proof (bufferTest_zone slotTime b') as Hz.
  destruct (((slotTime >=? subHours (startTime b') BUFFER_HOURS)
             && (slotTime <? startTime b'))
            || ((slotTime >=? endTime b')
                && (slotTime <? addHours (endTime b') BUFFER_HOURS))) eqn:E.
  - intros H.
    assert (Hb : b' = b).
    { destruct ((slotTime >=? subHours (startTime b') BUFFER_HOURS)
                && (slotTime <? startTime b')); [ congruence | ].
      destruct ((slotTime >=? endTime b')
                && (slotTime <? addHours (endTime b') BUFFER_HOURS));
        [ congruence | discriminate E ]. }
    subst b'. exists [], rest. repeat split; [ now apply Hz | intros x [] ].
  - apply orb_false_iff in E. destruct E as [E1 E2]. rewrite E1, E2.
    intros H.
    destruct (IH (fun x Hx => Hfree x (or_intror Hx)) H)
      as (l1 & l2 & -> & Hb & Hl1).
    exists (b' :: l1), l2. repeat split; auto.
    intros x [<- | Hx]; [ | now apply Hl1 ].
    intros Hzone. apply Hz in Hzone. discriminate Hzone.
Qed.

(** The two flags, from the tests of the source. *)
Lemma flags_by_tests (slotTime : Date) (bookings : list Booking) :
  (isBooked (checkSlotAvailability slotTime bookings) = true
   <-> exists b, In b bookings
                 /\ directlyBooked slotTime (addHours slotTime 1) b = true)
  /\ (isBuffer (checkSlotAvailability slotTime bookings) = true
      <-> (forall b, In b bookings ->
             directlyBooked slotTime (addHours slotTime 1) b = false)
          /\ exists b, In b bookings /\ inBufferZone slotTime b).
Proof.
  unfold checkSlotAvailability.
  destruct (bookedPass slotTime (addHours slotTime 1) bookings) as [b |] eqn:E1.
  - apply bookedPass_some in E1. destruct E1 as [Hin Hb]. simpl. split.
    + split; [ intros _; now exists b | reflexivity ].
    + split; [ discriminate | ].
      intros [Hfree _]. rewrite (Hfree b Hin) in Hb. discriminate Hb.
  - pose proof (proj1 (bookedPass_none _ _ _) E1) as Hfree.
    destruct (bufferPass slotTime (addHours slotTime 1) bookings) as [b |] eqn:E2;
      simpl.
    + apply bufferPass_some in E2. destruct E2 as (Hin & _ & Hz). split.
      * split; [ discriminate | ].
        intros (x & Hx & Hd). rewrite (Hfree x Hx) in Hd. discriminate Hd.
      * split; [ intros _; split; [ exact Hfree | now exists b ] | reflexivity ].
    + split.
      * split; [ discriminate | ].
        intros (x & Hx & Hd). rewrite (Hfree x Hx) in Hd. discriminate Hd.
      * split; [ discriminate | ].
        intros [_ (x & Hx & Hz)].
        now destruct (bufferPass_none _ _ _ E2 x Hx (Hfree x Hx)).
Qed.

Lemma bool_eq_iff (a b : bool) : (a = true <-> b = true) -> a = b.
Proof. destruct a, b; intuition congruence. Qed.

(** The two flags, by overlap, for bookings that end after they start. *)
Lemma flags_by_overlap (slotTime : Date) (bookings : list Booking)
  (Hwf : forall b, In b bookings -> wellFormed b) :
  (isBooked (checkSlotAvailability slotTime bookings) = true
   <-> exists b, In b bookings /\ overlapsSlot slotTime b)
  /\ (isBuffer (checkSlotAvailability slotTime bookings) = true
      <-> (forall b, In b bookings -> ~ overlapsSlot slotTime b)
          /\ exists b, In b bookings /\ inBufferZone slotTime b).
Proof.
  destruct (flags_by_tests slotTime bookings) as [Hb Hf].
  split.
  - rewrite Hb. split; intros (b & Hin & H); exists b; split; auto;
      now apply (directlyBooked_overlaps slotTime b (Hwf b Hin)).
  - rewrite Hf. split; intros [Hfree Hz]; (split; [ | exact Hz ]); intros b Hin.
    + intros Ho. apply (directlyBooked_overlaps slotTime b (Hwf b Hin)) in Ho.
      rewrite (Hfree b Hin) in Ho. discriminate Ho.
    + destruct (directlyBooked slotTime (addHours slotTime 1) b) eqn:E;
        [ | reflexivity ].
      apply (directlyBooked_overlaps slotTime b (Hwf b Hin)) in E.
      now destruct (Hfree b Hin).
Qed.

(** For bookings that end after they start, a slot is booked exactly when a
    booking overlaps it, and it is buffer exactly when no booking overlaps
    it and its start lies in the hour before or after one of them. *)
Theorem slot_flags_by_overlap (slotTime : Date) (bookings : list Booking)
  (Hwf : forall b, In b bookings -> wellFormed b) :
  (isBooked (checkSlotAvailability slotTime bookings) = true
   <-> exists b, In b bookings /\ overlapsSlot slotTime b)
  /\ (isBuffer (checkSlotAvailability slotTime bookings) = true
      <-> (forall b, In b bookings -> ~ overlapsSlot slotTime b)
          /\ exists b, In b bookings /\ inBufferZone slotTime b).
Proof. exact (flags_by_overlap slotTime bookings Hwf). Qed.

(** The sample booking from 14:00 to 16:00 and the 15:00 slot. *)
Lemma slot_flags_by_overlap_witness :
  isBooked (checkSlotAvailability (addHours jan15 15) [sessionBooking]) = true
  <-> exists b, In b [sessionBooking] /\ overlapsSlot (addHours jan15 15) b.
Proof.
  apply (slot_flags_by_overlap (addHours jan15 15) [sessionBooking]).
  intros b [<- | []]. reflexivity.
Defined.

(** The booking attached to a result is the first of the list, in list
    order, that passes the test of its pass: the first that the slot
    meets when the slot is booked, the first whose buffer holds the slot
    start when it is buffer. *)
Theorem first_match_is_reported (slotTime : Date) (bookings : list Booking)
  (b : Booking)
  (Hdetails : bookingDetails (checkSlotAvailability slotTime bookings) = Some b) :
  exists l1 l2,
    bookings = l1 ++ b :: l2
    /\ (isBooked (checkSlotAvailability slotTime bookings) = true ->
        directlyBooked slotTime (addHours slotTime 1) b = true
        /\ forall x, In x l1 ->
             directlyBooked slotTime (addHours slotTime 1) x = false)
    /\ (isBooked (checkSlotAvailability slotTime bookings) = false ->
        inBufferZone slotTime b
        /\ forall x, In x l1 -> ~ inBufferZone slotTime x).
Proof.
  revert Hdetails. unfold checkSlotAvailability.
  destruct (bookedPass slotTime (addHours slotTime 1) bookings) as [b1 |] eqn:E1.
  - simpl. intros [= <-].
    destruct (bookedPass_first _ _ _ _ E1) as (l1 & l2 & Hl & Hb & Hl1).
    exists l1, l2. split; [ exact Hl | ]. split; [ auto | discriminate ].
  - pose proof (proj1 (bookedPass_none _ _ _) E1) as Hfree.
    destruct (bufferPass slotTime (addHours slotTime 1) bookings) as [b2 |] eqn:E2;
      simpl; [ | discriminate ].
    intros [= <-].
    destruct (bufferPass_first _ _ _ _ Hfree E2) as (l1 & l2 & Hl & Hb & Hl1).
    exists l1, l2. split; [ exact Hl | ]. split; [ discriminate | auto ].
Qed.

(** The two flags do not depend on the order of the bookings (the booking
    attached does). *)
Theorem flags_ignore_booking_order (slotTime : Date) (bookings bookings' : list Booking)
  (Hperm : Permutation bookings bookings') :
  isBooked (checkSlotAvailability slotTime bookings)
  = isBooked (checkSlotAvailability slotTime bookings')
  /\ isBuffer (checkSlotAvailability slotTime bookings)
     = isBuffer (checkSlotAvailability slotTime bookings').
Proof.
  destruct (flags_by_tests slotTime bookings) as [Hb Hf].
  destruct (flags_by_tests slotTime bookings') as [Hb' Hf'].
  assert (Hin : forall b, In b bookings <-> In b bookings').
  { intros b. split; apply Permutation_in; [ assumption | now symmetry ]. }
  split; apply bool_eq_iff.
  - rewrite Hb, Hb'. split; intros (b & Hb0 & H); exists b; split; auto;
      now apply Hin.
  - rewrite Hf, Hf'.
    split; intros [Hfree (b & Hb0 & Hz)]; split;
      try (exists b; split; [ now apply Hin | exact Hz ]);
      intros x Hx; apply Hfree; now apply Hin.
Qed.

(** Two bookings around the 13:00 slot, in both orders. *)
Lemma flags_ignore_booking_order_witness :
  isBooked (checkSlotAvailability (addHours jan15 13)
              [sessionBooking;
               mkBooking "s0" (addHours jan15 11) (addHours jan15 13) "Bia" None None])
  = isBooked (checkSlotAvailability (addHours jan15 13)
                [mkBooking "s0" (addHours jan15 11) (addHours jan15 13) "Bia" None None;
                 sessionBooking])
  /\ isBuffer (checkSlotAvailability (addHours jan15 13)
                 [sessionBooking;
                  mkBooking "s0" (addHours jan15 11) (addHours jan15 13) "Bia" None None])
     = isBuffer (checkSlotAvailability (addHours jan15 13)
                   [mkBooking "s0" (addHours jan15 11) (addHours jan15 13) "Bia" None None;
                    sessionBooking]).
Proof.
  apply flags_ignore_booking_order. apply perm_swap.
Defined.

(** A booking that does not end after it starts is not validated: it marks
    as booked every slot that starts from one hour before its end up to its
    start. *)
Theorem inverted_booking_marks_slots (slotTime : Date) (b : Booking)
  (Hinv : endTime b <= startTime b) :
  isBooked (checkSlotAvailability slotTime [b]) = true
  <-> endTime b - MS_PER_HOUR <= slotTime <= startTime b.
Proof.
  destruct (flags_by_tests slotTime [b]) as [Hb _]. rewrite Hb.
  assert (Ht : directlyBooked slotTime (addHours slotTime 1) b = true
               <-> endTime b - MS_PER_HOUR <= slotTime <= startTime b).
  { unfold directlyBooked, addHours, MS_PER_HOUR in *. split.
    - intros H. cmp; lia.
    - intros H.
      match goal with |- ?t = true => destruct t eqn:E end; [ reflexivity | ].
      exfalso. cmp; lia. }
  rewrite <- Ht. split.
  - intros (x & [<- | []] & H). exact H.
  - intros H. exists b. split; [ now left | exact H ].
Qed.

(** A booking entered from 16:00 back to 14:00, and the 13:00 slot. *)
Lemma inverted_booking_marks_slots_witness :
  isBooked (checkSlotAvailability (addHours jan15 13)
              [mkBooking "s2" (addHours jan15 16) (addHours jan15 14) "Ana" None None])
  = true.
Proof.
  apply (inverted_booking_marks_slots (addHours jan15 13)
           (mkBooking "s2" (addHours jan15 16) (addHours jan15 14) "Ana" None None)).
  - vm_compute. discriminate.
  - vm_compute. split; discriminate.
Defined.



End SlotFlags.

(** * More on the display week *)

Section WeekAndSlots.

Local Open Scope Z_scope.

Lemma startOfDay_addDays (date : Date) (n : Z) :
  startOfDay (addDays date n) = addDays (startOfDay date) n.
Proof.
  unfold startOfDay, addDays, MS_PER_DAY.
  rewrite Z.mod_add by lia. lia.
Qed.

Lemma startOfWeek_shift (date : Date) :
  startOfWeek date 1 = addDays (startOfDay date) (- ((getDay date + 6) mod 7)).
Proof.
  unfold startOfWeek. rewrite startOfDay_addDays. f_equal. f_equal.
  pose proof (getDay_range date) as Hr.
  destruct (Z.ltb_spec (getDay date) 1).
  - replace (getDay date) with 0 by lia. reflexivity.
  - replace (getDay date + 6) with (getDay date - 1 + 1 * 7) by lia.
    rewrite Z.mod_add by lia. rewrite Z.mod_small by lia. lia.
Qed.

(** The Monday midnight at or before an instant, less than a week before
    it, is only one. *)
Lemma week_start_unique (m1 m2 x : Date) :
  getDay m1 = 1 -> startOfDay m1 = m1 -> m1 <= x < m1 + 7 * MS_PER_DAY ->
  getDay m2 = 1 -> startOfDay m2 = m2 -> m2 <= x < m2 + 7 * MS_PER_DAY ->
  m1 = m2.
Proof.
  unfold getDay, startOfDay, MS_PER_DAY.
  intros D1 S1 W1 D2 S2 W2.
  assert (E1 : m1 = 86400000 * (m1 / 86400000)).
  { pose proof (Z.div_mod m1 86400000 ltac:(lia)). lia. }
  assert (E2 : m2 = 86400000 * (m2 / 86400000)).
  { pose proof (Z.div_mod m2 86400000 ltac:(lia)). lia. }
  set (q1 := m1 / 86400000) in *. set (q2 := m2 / 86400000) in *.
  assert (Hq : q1 = q2); [ | lia ].
  pose proof (Z.div_mod (q1 + 4) 7 ltac:(lia)).
  pose proof (Z.div_mod (q2 + 4) 7 ltac:(lia)).
  lia.
Qed.

Lemma startOfWeek_same_week (date x : Date) :
  startOfWeek date 1 <= x < startOfWeek date 1 + 7 * MS_PER_DAY ->
  startOfWeek x 1 = startOfWeek date 1.
Proof.
  intros Hx.
  destruct (startOfWeek_monday date) as (D1 & S1 & _).
  destruct (startOfWeek_monday x) as (D2 & S2 & W2).
  now apply (week_start_unique _ _ x).
Qed.

Lemma getWeekDates_list (date : Date) :
  getWeekDates date
  = [startOfWeek date 1; addDays (startOfWeek date 1) 1;
     addDays (startOfWeek date 1) 2; addDays (startOfWeek date 1) 3;
     addDays (startOfWeek date 1) 4; addDays (startOfWeek date 1) 5].
Proof.
  unfold getWeekDates. cbv zeta.
  cbn [seq List.map Z.of_nat Pos.of_succ_nat Pos.succ].
  f_equal. unfold addDays. lia.
Qed.

(** Every instant of a Monday-first week gives the same six dates; so does
    each of the dates returned. *)
Theorem getWeekDates_same_week (date : Date) :
  (forall x : Date,
     startOfWeek date 1 <= x < addDays (startOfWeek date 1) 7 ->
     getWeekDates x = getWeekDates date)
  /\ (forall x : Date, In x (getWeekDates date) -> getWeekDates x = getWeekDates date).
Proof.
  assert (Hsame : forall x : Date,
            startOfWeek date 1 <= x < addDays (startOfWeek date 1) 7 ->
            getWeekDates x = getWeekDates date).
  { intros x Hx. unfold getWeekDates. cbv zeta.
    now rewrite (startOfWeek_same_week date x). }
  split; [ exact Hsame | ].
  intros x Hin. apply Hsame. rewrite getWeekDates_list in Hin.
  cbn [In] in Hin. unfold addDays, MS_PER_DAY in *.
  destruct Hin as [<- | [<- | [<- | [<- | [<- | [<- | []]]]]]]; lia.
Qed.

(** The Wednesday and the Saturday of the sample week. *)
Lemma getWeekDates_same_week_witness :
  getWeekDates (addHours (addDays jan15 2) 15) = getWeekDates jan15
  /\ getWeekDates (addDays jan15 5) = getWeekDates jan15.
Proof.
  destruct (getWeekDates_same_week jan15) as [Hweek Hown].
  split.
  - apply (Hweek (addHours (addDays jan15 2) 15)). vm_compute.
    split; [ discriminate | reflexivity ].
  - apply (Hown (addDays jan15 5)). vm_compute. tauto.
Defined.

(** The day of the reference instant is one of the six dates exactly when
    it is not a Sunday; a Sunday gets the six days before it. *)
Theorem getWeekDates_holds_reference_day (date : Date) :
  (In (startOfDay date) (getWeekDates date) <-> getDay date <> 0)
  /\ (getDay date = 0 ->
      getWeekDates date
      = [addDays (startOfDay date) (-6); addDays (startOfDay date) (-5);
         addDays (startOfDay date) (-4); addDays (startOfDay date) (-3);
         addDays (startOfDay date) (-2); addDays (startOfDay date) (-1)]).
Proof.
  pose proof (getDay_range date) as Hr.
  rewrite getWeekDates_list, startOfWeek_shift.
  split.
  - assert (Hd : getDay date = 0 \/ getDay date = 1 \/ getDay date = 2
                 \/ getDay date = 3 \/ getDay date = 4 \/ getDay date = 5
                 \/ getDay date = 6) by lia.
    cbn [In]. unfold addDays, MS_PER_DAY.
    generalize (startOfDay date). intros s.
    destruct Hd as [-> | [-> | [-> | [-> | [-> | [-> | ->]]]]]];
      match goal with
      | |- context [(?k + 6) mod 7] =>
          let v := eval vm_compute in ((k + 6) mod 7) in
          change ((k + 6) mod 7) with v
      end; intuition lia.
  - intros ->. change ((0 + 6) mod 7) with 6.
    unfold addDays. repeat (f_equal; try lia).
Qed.

(** Sunday 2024-01-21. *)
Lemma getWeekDates_holds_reference_day_witness :
  getWeekDates (addDays jan15 6)
  = [jan15; addDays jan15 1; addDays jan15 2; addDays jan15 3;
     addDays jan15 4; addDays jan15 5].
Proof.
  destruct (getWeekDates_holds_reference_day (addDays jan15 6)) as [_ Hsun].
  rewrite Hsun; reflexivity.
Defined.

(** Seven days later, the dates are those of the next week. *)
Theorem getWeekDates_next_week (date : Date) :
  getWeekDates (addDays date 7)
  = List.map (fun d => addDays d 7) (getWeekDates date).
Proof.
  assert (Hw : startOfWeek (addDays date 7) 1 = addDays (startOfWeek date 1) 7).
  { rewrite !startOfWeek_shift, startOfDay_addDays, getDay_addDays.
    replace ((getDay date + 7) mod 7) with (getDay date).
    - unfold addDays. lia.
    - pose proof (getDay_range date).
      replace (getDay date + 7) with (getDay date + 1 * 7) by lia.
      rewrite Z.mod_add by lia. now rewrite Z.mod_small. }
  rewrite !getWeekDates_list, Hw. cbn [List.map].
  unfold addDays. repeat (f_equal; try lia).
Qed.

(** ** The hour slots *)

Lemma eachHourLoop_run (n fuel : nat) (currentDate endTime : Date) :
  (n <= fuel)%nat ->
  currentDate + Z.of_nat n * MS_PER_HOUR - MS_PER_HOUR <= endTime
    < currentDate + Z.of_nat n * MS_PER_HOUR ->
  eachHourLoop fuel currentDate endTime
  = Some (List.map (fun i => addHours currentDate (Z.of_nat i)) (seq 0 n)).
Proof.
  revert fuel currentDate.
  induction n as [| n IH]; intros fuel currentDate Hfuel Hend.
  - assert (E : (currentDate <=? endTime) = false).
    { apply Z.leb_gt. unfold MS_PER_HOUR in *. lia. }
    destruct fuel; simpl; now rewrite E.
  - destruct fuel as [| fuel]; [ lia | ].
    cbn [eachHourLoop].
    assert (E : (currentDate <=? endTime) = true).
    { apply Z.leb_le. unfold MS_PER_HOUR in *. lia. }
    rewrite E, (IH fuel (addHours currentDate 1)).
    + cbn [seq List.map]. f_equal. f_equal.
      * unfold addHours. cbn. lia.
      * rewrite <- seq_shift, List.map_map.
        apply List.map_ext. intros i. unfold addHours. lia.
    + lia.
    + unfold addHours, MS_PER_HOUR in *. lia.
Qed.

(** [eachHourOfInterval] on an interval that is not reversed: the whole
    hours from the hour of the start up to the end; the loop is not cut
    short. *)
Lemma eachHourOfInterval_hours (start end_ : Date) :
  start <= end_ ->
  eachHourOfInterval start end_
  = Hours (List.map (fun i => addHours (start - start mod MS_PER_HOUR) (Z.of_nat i))
             (seq 0 (Z.to_nat ((end_ - (start - start mod MS_PER_HOUR))
                                / MS_PER_HOUR + 1)))).
Proof.
  intros Hle. unfold eachHourOfInterval.
  assert (E : (end_ <? start) = false) by (apply Z.ltb_ge; lia).
  rewrite E. cbv zeta.
  set (c := start - start mod MS_PER_HOUR).
  assert (Hc : c <= end_).
  { subst c. pose proof (Z.mod_pos_bound start MS_PER_HOUR ltac:(unfold MS_PER_HOUR; lia)).
    lia. }
  set (n := Z.to_nat ((end_ - c) / MS_PER_HOUR + 1)).
  rewrite (eachHourLoop_run n n c end_); [ reflexivity | lia | ].
  subst n. unfold MS_PER_HOUR in *.
  pose proof (Z.div_mod (end_ - c) 3600000 ltac:(lia)).
  pose proof (Z.mod_pos_bound (end_ - c) 3600000 ltac:(lia)).
  assert (0 <= (end_ - c) / 3600000) by (apply Z.div_pos; lia).
  rewrite Z2Nat.id by lia. lia.
Qed.

Lemma calendar_day_bounds (date : Date) (hours : Z) :
  setHours (setMinutes (setSeconds date 0) 0) hours
  = startOfDay date + hours * MS_PER_HOUR + date mod MS_PER_SECOND.
Proof.
  unfold setHours, setMinutes, setSeconds, getHours, getMinutes, getSeconds,
    startOfDay, MS_PER_DAY, MS_PER_HOUR, MS_PER_MINUTE, MS_PER_SECOND.
  Z.div_mod_to_equations. lia.
Qed.

Lemma generateTimeSlots_list (date : Date) :
  generateTimeSlots date
  = Hours (List.map (fun h => addHours (startOfDay date) h)
             [9; 10; 11; 12; 13; 14; 15; 16; 17; 18]).
Proof.
  unfold generateTimeSlots. cbv zeta.
  rewrite !calendar_day_bounds.
  unfold CALENDAR_START_HOUR, CALENDAR_END_HOUR.
  pose proof (Z.mod_pos_bound date MS_PER_SECOND ltac:(unfold MS_PER_SECOND; lia)) as Hms.
  set (ms := date mod MS_PER_SECOND) in *.
  assert (Hday : startOfDay date mod MS_PER_HOUR = 0).
  { unfold startOfDay, MS_PER_DAY, MS_PER_HOUR. Z.div_mod_to_equations. lia. }
  assert (Hstart : (startOfDay date + 9 * MS_PER_HOUR + ms) mod MS_PER_HOUR = ms).
  { unfold MS_PER_HOUR, MS_PER_SECOND in *. Z.div_mod_to_equations. lia. }
  rewrite eachHourOfInterval_hours by (unfold MS_PER_HOUR; lia).
  rewrite Hstart.
  replace (startOfDay date + 9 * MS_PER_HOUR + ms - ms)
    with (startOfDay date + 9 * MS_PER_HOUR) by lia.
  replace ((startOfDay date + (19 - 1) * MS_PER_HOUR + ms
            - (startOfDay date + 9 * MS_PER_HOUR)) / MS_PER_HOUR + 1) with 10.
  - change (Z.to_nat 10) with 10%nat.
    cbn [seq List.map Z.of_nat Pos.of_succ_nat Pos.succ].
    unfold addHours, MS_PER_HOUR. f_equal. repeat (f_equal; try lia).
  - unfold MS_PER_HOUR, MS_PER_SECOND in *. Z.div_mod_to_equations. lia.
Qed.

(** [generateTimeSlots] gives, whatever the time of day of its argument,
    the ten whole hours from 09:00 to 18:00 of that day, in order; the loop
    of [eachHourOfInterval] runs to its end and the interval is never
    reversed. *)
Theorem generateTimeSlots_nine_to_six (date : Date) :
  generateTimeSlots date
  = Hours (List.map (fun h => addHours (startOfDay date) h)
             [9; 10; 11; 12; 13; 14; 15; 16; 17; 18])
  /\ forall slots slot,
       generateTimeSlots date = Hours slots -> In slot slots ->
       List.length slots = 10%nat
       /\ startOfDay slot = startOfDay date
       /\ slot mod MS_PER_HOUR = 0
       /\ CALENDAR_START_HOUR <= getHours slot < CALENDAR_END_HOUR.
Proof.
  split; [ apply generateTimeSlots_list | ].
  intros slots slot Hgen Hin.
  rewrite generateTimeSlots_list in Hgen. injection Hgen as <-.
  split; [ reflexivity | ].
  cbn [List.map In] in Hin.
  unfold addHours, startOfDay, getHours, CALENDAR_START_HOUR, CALENDAR_END_HOUR,
    MS_PER_DAY, MS_PER_HOUR in *.
  destruct Hin as [<- | [<- | [<- | [<- | [<- | [<- | [<- | [<- | [<- | [<- | []]]]]]]]]]];
    (split; [ | split ]); Z.div_mod_to_equations; lia.
Qed.

(** The grid of a week: each date of [getWeekDates] gets its ten slots,
    from its own 09:00 to its own 18:00, and no slot falls on a Sunday. *)
Theorem week_grid_slots (currentDate day : Date)
  (Hday : In day (getWeekDates currentDate)) :
  generateTimeSlots day
  = Hours (List.map (fun h => addHours day h) [9; 10; 11; 12; 13; 14; 15; 16; 17; 18])
  /\ forall h, In h [9; 10; 11; 12; 13; 14; 15; 16; 17; 18] ->
       getDay (addHours day h) = getDay day
       /\ getDay (addHours day h) <> 0
       /\ getHours (addHours day h) = h.
Proof.
  assert (Hmid : startOfDay day = day /\ getDay day <> 0).
  { destruct (startOfWeek_monday currentDate) as (Hmon & Hmid & _).
    rewrite getWeekDates_list in Hday. cbn [In] in Hday.
    destruct Hday as [<- | [<- | [<- | [<- | [<- | [<- | []]]]]]];
      rewrite ?getDay_addDays, ?Hmon;
      (split; [ | vm_compute; discriminate ]);
      [ exact Hmid | rewrite <- Hmid; apply startOfDay_fixed .. ]. }
  destruct Hmid as [Hmid Hnot].
  split.
  - rewrite generateTimeSlots_list, Hmid. reflexivity.
  - intros h Hh.
    assert (Hsame : getDay (addHours day h) = getDay day /\ getHours (addHours day h) = h).
    { cbn [In] in Hh. unfold getDay, getHours, addHours, startOfDay,
        MS_PER_DAY, MS_PER_HOUR in *.
      destruct Hh as [<- | [<- | [<- | [<- | [<- | [<- | [<- | [<- | [<- | [<- | []]]]]]]]]]];
        split; Z.div_mod_to_equations; lia. }
    destruct Hsame as [Hd Hh']. rewrite Hd. auto.
Qed.

(** The Tuesday of the sample week. *)
Lemma week_grid_slots_witness :
  generateTimeSlots (addDays jan15 1)
  = Hours (List.map (fun h => addHours (addDays jan15 1) h)
             [9; 10; 11; 12; 13; 14; 15; 16; 17; 18]).
Proof.
  apply (week_grid_slots jan15 (addDays jan15 1)).
  vm_compute. tauto.
Defined.

End WeekAndSlots.

(** * The bookings of the display week *)

Section WeekBookings.

Local Open Scope Z_scope.

Lemma last_getWeekDates (date : Date) :
  List.last (getWeekDates date) (startOfWeek date 1)
  = addDays (startOfWeek date 1) 5.
Proof. rewrite getWeekDates_list. reflexivity. Qed.

(** The window of [getBookingsForWeek] on the dates of [getWeekDates]: from
    the Monday midnight, six days. *)
Lemma week_window (date start : Date) :
  (start >=? startOfDay (startOfWeek date 1))
  && (start <=? endOfDay (addDays (startOfWeek date 1) 5))
  = (startOfWeek date 1 <=? start) && (start <? addDays (startOfWeek date 1) 6).
Proof.
  destruct (startOfWeek_monday date) as (_ & Hmid & _).
  unfold endOfDay. rewrite startOfDay_addDays, Hmid.
  unfold addDays, MS_PER_DAY. rewrite Z.geb_leb.
  destruct (Z.leb_spec (startOfWeek date 1) start); simpl; [ | reflexivity ].
  destruct (Z.leb_spec start (startOfWeek date 1 + 5 * 86400000 + 86400000 - 1));
    destruct (Z.ltb_spec start (startOfWeek date 1 + 6 * 86400000));
    try reflexivity; lia.
Qed.

Lemma getBookingsForWeek_of_week
  (date : Date) (allBookingDocuments : list BookingDocument)
  (allClients : list ClientDocument) (allProjects : list ProjectDocument) :
  getBookingsForWeek (getWeekDates date) allBookingDocuments allClients allProjects
  = List.map (weekBookingOf allClients allProjects)
      (List.filter
         (fun doc => (startOfWeek date 1 <=? doc_startTime doc)
                     && (doc_startTime doc <? addDays (startOfWeek date 1) 6))
         allBookingDocuments).
Proof.
  unfold getBookingsForWeek.
  pose proof (last_getWeekDates date) as Hlast.
  rewrite getWeekDates_list in *. cbv zeta.
  match goal with
  | |- context [List.last ?l ?d] => replace (List.last l d)
      with (addDays (startOfWeek date 1) 5) by (symmetry; exact Hlast)
  end.
  f_equal. apply List.filter_ext. intros doc. apply week_window.
Qed.

Lemma week_day_not_sunday (monday x : Date) :
  getDay monday = 1 -> startOfDay monday = monday ->
  monday <= x < addDays monday 6 -> getDay x <> 0.
Proof.
  unfold getDay, startOfDay, addDays, MS_PER_DAY.
  intros Hd Hs Hx.
  assert (E : monday = 86400000 * (monday / 86400000)).
  { pose proof (Z.div_mod monday 86400000 ltac:(lia)). lia. }
  set (q := monday / 86400000) in *.
  assert (Hq : q <= x / 86400000 < q + 6).
  { split.
    - apply Z.div_le_lower_bound; lia.
    - apply Z.div_lt_upper_bound; lia. }
  pose proof (Z.div_mod (q + 4) 7 ltac:(lia)).
  pose proof (Z.mod_pos_bound (q + 4) 7 ltac:(lia)).
  pose proof (Z.div_mod (x / 86400000 + 4) 7 ltac:(lia)).
  pose proof (Z.mod_pos_bound (x / 86400000 + 4) 7 ltac:(lia)).
  lia.
Qed.

(** On the dates of [getWeekDates], [getBookingsForWeek] shows, in the order
    of the documents, one booking for each document that starts from the
    Monday midnight up to the end of the Saturday, whether its client and
    project are found or not; none of them starts on a Sunday. *)
Theorem getBookingsForWeek_monday_to_saturday
  (date : Date) (allBookingDocuments : list BookingDocument)
  (allClients : list ClientDocument) (allProjects : list ProjectDocument) :
  List.map wb_id
    (getBookingsForWeek (getWeekDates date) allBookingDocuments allClients allProjects)
  = List.map doc_id
      (List.filter
         (fun doc => (startOfWeek date 1 <=? doc_startTime doc)
                     && (doc_startTime doc <? addDays (startOfWeek date 1) 6))
         allBookingDocuments)
  /\ (forall doc : BookingDocument,
        In doc allBookingDocuments ->
        startOfWeek date 1 <= doc_startTime doc < addDays (startOfWeek date 1) 6 ->
        In (weekBookingOf allClients allProjects doc)
           (getBookingsForWeek (getWeekDates date) allBookingDocuments
              allClients allProjects))
  /\ (forall w : WeekBooking,
        In w (getBookingsForWeek (getWeekDates date) allBookingDocuments
                allClients allProjects) ->
        startOfWeek date 1 <= wb_startTime w < addDays (startOfWeek date 1) 6
        /\ getDay (wb_startTime w) <> 0).
Proof.
  rewrite getBookingsForWeek_of_week.
  split; [ | split ].
  - rewrite List.map_map. reflexivity.
  - intros doc Hin Hwin. apply in_map, filter_In. split; [ exact Hin | ].
    apply andb_true_iff. split; [ apply Z.leb_le | apply Z.ltb_lt ]; lia.
  - intros w Hw. apply in_map_iff in Hw. destruct Hw as (doc & <- & Hdoc).
    apply filter_In in Hdoc. destruct Hdoc as [_ Hwin].
    apply andb_true_iff in Hwin. destruct Hwin as [H1 H2].
    apply Z.leb_le in H1. apply Z.ltb_lt in H2. cbn [weekBookingOf wb_startTime].
    split; [ lia | ].
    destruct (startOfWeek_monday date) as (Hd & Hs & _).
    apply (week_day_not_sunday (startOfWeek date 1)); auto.
Qed.

(** The sample with dangling references: its three documents of Monday are
    all shown. *)
Lemma getBookingsForWeek_monday_to_saturday_witness :
  List.length (getBookingsForWeek (getWeekDates jan15) dangling [ana] [packageProject])
  = 3%nat.
Proof.
  destruct (getBookingsForWeek_monday_to_saturday jan15 dangling [ana] [packageProject])
    as (Hids & _ & _).
  rewrite <- (List.length_map wb_id), Hids. reflexivity.
Defined.

(** Without dates nothing is shown; with dates in the wrong order (the last
    one before the first) nothing is shown either. *)
Theorem getBookingsForWeek_empty_window
  (weekDates : list Date) (allBookingDocuments : list BookingDocument)
  (allClients : list ClientDocument) (allProjects : list ProjectDocument)
  (Hwindow : weekDates = []
             \/ exists first rest,
                  weekDates = first :: rest
                  /\ endOfDay (List.last weekDates first) < startOfDay first) :
  getBookingsForWeek weekDates allBookingDocuments allClients allProjects = [].
Proof.
  destruct Hwindow as [-> | (first & rest & -> & Hlt)]; [ reflexivity | ].
  unfold getBookingsForWeek. cbv zeta.
  rewrite filter_none; [ reflexivity | ].
  intros doc _. rewrite Z.geb_leb.
  destruct (Z.leb_spec (startOfDay first) (doc_startTime doc)); cbn [andb];
    [ | reflexivity ].
  apply Z.leb_gt. lia.
Qed.

(** Dates handed over from Saturday back to Monday. *)
Lemma getBookingsForWeek_empty_window_witness :
  getBookingsForWeek (List.rev (getWeekDates jan15)) dangling [ana] [packageProject]
  = [].
Proof.
  apply getBookingsForWeek_empty_window. right.
  exists (addDays jan15 5), (List.tl (List.rev (getWeekDates jan15))).
  split; [ reflexivity | ]. vm_compute. reflexivity.
Defined.

(** The grid and the bookings together: when the documents end after they
    start, a slot is booked exactly when a document that starts in the
    displayed week overlaps it. *)
Theorem week_slot_booked_iff
  (date slotTime : Date) (allBookingDocuments : list BookingDocument)
  (allClients : list ClientDocument) (allProjects : list ProjectDocument)
  (Hwf : forall doc, In doc allBookingDocuments ->
           doc_startTime doc < doc_endTime doc) :
  isBooked
    (checkSlotAvailability slotTime
       (List.map toBooking
          (getBookingsForWeek (getWeekDates date) allBookingDocuments
             allClients allProjects))) = true
  <-> exists doc : BookingDocument,
        In doc allBookingDocuments
        /\ startOfWeek date 1 <= doc_startTime doc < addDays (startOfWeek date 1) 6
        /\ doc_startTime doc < slotTime + MS_PER_HOUR
        /\ slotTime < doc_endTime doc.
Proof.
  rewrite getBookingsForWeek_of_week, List.map_map.
  set (shown := List.filter _ allBookingDocuments).
  assert (Hshown : forall doc, In doc shown <->
            In doc allBookingDocuments
            /\ startOfWeek date 1 <= doc_startTime doc < addDays (startOfWeek date 1) 6).
  { intros doc. subst shown. rewrite filter_In, andb_true_iff, Z.leb_le, Z.ltb_lt.
    tauto. }
  destruct (flags_by_overlap slotTime
              (List.map (fun doc => toBooking (weekBookingOf allClients allProjects doc))
                 shown)) as [Hb _].
  { intros b Hin. apply in_map_iff in Hin. destruct Hin as (doc & <- & Hdoc).
    apply Hshown in Hdoc. unfold wellFormed. cbn. apply Hwf. tauto. }
  rewrite Hb. split.
  - intros (b & Hin & Ho). apply in_map_iff in Hin.
    destruct Hin as (doc & <- & Hdoc). apply Hshown in Hdoc.
    exists doc. unfold overlapsSlot in Ho. cbn in Ho. tauto.
  - intros (doc & Hin & Hwin & Ho).
    exists (toBooking (weekBookingOf allClients allProjects doc)).
    split.
    + apply in_map_iff. exists doc. split; [ reflexivity | ]. apply Hshown. tauto.
    + unfold overlapsSlot. cbn. exact Ho.
Qed.

(** The Monday 01:00 slot of the sample week, inside the first document of
    the sample (00:00 to 03:00). *)
Lemma week_slot_booked_iff_witness :
  isBooked
    (checkSlotAvailability (addHours jan15 1)
       (List.map toBooking
          (getBookingsForWeek (getWeekDates jan15) dangling [ana] [packageProject])))
  = true.
Proof.
  apply (week_slot_booked_iff jan15 (addHours jan15 1) dangling [ana] [packageProject]).
  - intros doc [<- | [<- | [<- | []]]]; reflexivity.
  - eexists. split; [ left; reflexivity | ].
    vm_compute. repeat split; discriminate.
Defined.

End WeekBookings.

(** * More on the pricing *)

Section PricingBounds.

Local Open Scope Q_scope.

Lemma tieredRate_bounds (h : Q) : 160 <= tieredRate h <= 350.
Proof.
  destruct (tieredRate_cases h)
    as [(_ & ->) | [(_ & _ & ->) | [(_ & _ & ->) | (_ & ->)]]]; lra.
Qed.

Lemma reduceSum_map {A : Type} (f : A -> Q) (xs : list A) :
  reduceSum (fun x => x) (List.map f xs) = reduceSum f xs.
Proof.
  unfold reduceSum. generalize 0.
  induction xs as [| x xs IH]; intros acc; simpl; [ reflexivity | apply IH ].
Qed.

(** Under package billing, and for a custom project without a rate, the
    cost of a project is the monthly invoice formula of the alternate
    version applied to the durations of the project: the two ladders are
    the same. *)
Theorem project_cost_is_invoice_of_durations
  (project : ProjectDocument) (projectBookings : list BookingDocument)
  (Hladder : billingType project = pacote \/ customRate project = None) :
  calculateProjectCost projectBookings (Some project)
  = Some (Alt.calculateClientMonthlyInvoice (List.map duration projectBookings)).
Proof.
  unfold calculateProjectCost, Alt.calculateClientMonthlyInvoice.
  rewrite reduceSum_map.
  assert (E : forall h, getProjectPricePerHour project h = Alt.getTieredPricePerHour h).
  { intros h. unfold getProjectPricePerHour, Alt.getTieredPricePerHour.
    destruct Hladder as [-> | ->]; [ reflexivity | ].
    now destruct (billingType project). }
  now rewrite E.
Qed.

(** The sample package project. *)
Lemma project_cost_is_invoice_of_durations_witness :
  calculateProjectCost elevenHours (Some packageProject)
  = Some (Alt.calculateClientMonthlyInvoice [5; 6]).
Proof.
  apply (project_cost_is_invoice_of_durations packageProject elevenHours).
  left. reflexivity.
Defined.

(** The two versions of [calculateProjectCost] part on a custom project
    without a rate: the alternate one bills nothing, whatever the
    bookings, and this one bills the tier rate of the hours. *)
Theorem versions_part_on_custom_without_rate
  (project : ProjectDocument) (projectBookings : list BookingDocument)
  (Hcustom : billingType project = personalizado)
  (Hnone : customRate project = None) :
  exists m mAlt : ProjectCostMetrics,
    calculateProjectCost projectBookings (Some project) = Some m
    /\ Alt.calculateProjectCost projectBookings (Some project) = Some mAlt
    /\ totalHours mAlt = totalHours m
    /\ pricePerHour mAlt = 0
    /\ totalAmount mAlt == 0
    /\ (0 < totalHours m -> 0 < totalAmount m).
Proof.
  eexists. eexists. split; [ reflexivity | ]. split; [ reflexivity | ].
  cbn [totalHours pricePerHour totalAmount].
  assert (E : getPricePerHourForProject (Some project) = 0).
  { unfold getPricePerHourForProject. now rewrite Hcustom, Hnone. }
  rewrite E. split; [ reflexivity | ]. split; [ reflexivity | ].
  split; [ ring | ].
  intros Hpos.
  assert (Er : getProjectPricePerHour project (reduceSum duration projectBookings)
               = tieredRate (reduceSum duration projectBookings)).
  { unfold getProjectPricePerHour. now rewrite Hcustom, Hnone. }
  rewrite Er.
  pose proof (tieredRate_bounds (reduceSum duration projectBookings)). nra.
Qed.

(** The sample custom project without a rate, with 11 hours. *)
Lemma versions_part_on_custom_without_rate_witness :
  exists m mAlt : ProjectCostMetrics,
    calculateProjectCost elevenHours (Some customProjectNoRate) = Some m
    /\ Alt.calculateProjectCost elevenHours (Some customProjectNoRate) = Some mAlt
    /\ totalHours mAlt = totalHours m
    /\ pricePerHour mAlt = 0
    /\ totalAmount mAlt == 0
    /\ (0 < totalHours m -> 0 < totalAmount m).
Proof.
  apply (versions_part_on_custom_without_rate customProjectNoRate elevenHours);
    reflexivity.
Defined.

End PricingBounds.

(** * More on the monthly recipe *)

Section RecipeShape.

Local Open Scope Q_scope.

Variable allBookingDocuments : list BookingDocument.
Variable allProjects : list ProjectDocument.
Variable allClients : list ClientDocument.
Variable targetDateForMonth : Date.

Lemma monthlyBookingsOf_In (b : BookingDocument) :
  In b (monthlyBookingsOf allBookingDocuments targetDateForMonth)
  <-> In b allBookingDocuments
      /\ isSameMonth (doc_startTime b) targetDateForMonth = true.
Proof. unfold monthlyBookingsOf. apply filter_In. Qed.

Lemma clientMonthlyBookings_In (cid : string) (b : BookingDocument) :
  In b (clientMonthlyBookings allBookingDocuments targetDateForMonth cid)
  <-> In b allBookingDocuments
      /\ isSameMonth (doc_startTime b) targetDateForMonth = true
      /\ clientId b = cid.
Proof.
  unfold clientMonthlyBookings.
  rewrite filter_In, monthlyBookingsOf_In, String.eqb_eq. tauto.
Qed.

Lemma recipe_names (name : string) :
  is_Some (calculateMonthlyClientMetrics allBookingDocuments allProjects allClients
             targetDateForMonth !! name)
  <-> exists (b : BookingDocument) (client : ClientDocument),
        In b allBookingDocuments
        /\ isSameMonth (doc_startTime b) targetDateForMonth = true
        /\ findClient allClients (clientId b) = Some client
        /\ client_name client = name.
Proof.
  split.
  - intros [m Hm].
    destruct (recipe_origin _ _ _ _ _ _ Hm) as (client & Hfind & Hname & Hne & _).
    destruct (clientMonthlyBookings allBookingDocuments targetDateForMonth
                (client_id client)) as [| b bs] eqn:E; [ now destruct Hne | ].
    assert (Hb : In b (clientMonthlyBookings allBookingDocuments targetDateForMonth
                         (client_id client))) by (rewrite E; now left).
    apply clientMonthlyBookings_In in Hb. destruct Hb as (Hin & Hmonth & Hid).
    exists b, client. rewrite Hid. auto.
  - intros (b & client & Hin & Hmonth & Hfind & <-).
    apply (recipe_entry _ _ _ _ client b); [ | exact Hfind ].
    apply monthlyBookingsOf_In. auto.
Qed.

End RecipeShape.

Section RecipeClaims.

Local Open Scope Q_scope.

Lemma isSameMonth_fields (a b : Date) :
  isSameMonth a b = true <-> getFullYear a = getFullYear b /\ getMonth a = getMonth b.
Proof.
  unfold isSameMonth. rewrite andb_true_iff, !Z.eqb_eq. tauto.
Qed.

(** Only the month of the target date matters: two target dates of the
    same month give the same recipe. *)
Theorem recipe_depends_on_month_only
  (allBookingDocuments : list BookingDocument) (allProjects : list ProjectDocument)
  (allClients : list ClientDocument) (target target' : Date)
  (Hsame : isSameMonth target target' = true) :
  calculateMonthlyClientMetrics allBookingDocuments allProjects allClients target
  = calculateMonthlyClientMetrics allBookingDocuments allProjects allClients target'.
Proof.
  apply isSameMonth_fields in Hsame. destruct Hsame as [Hy Hm].
  unfold calculateMonthlyClientMetrics. cbv zeta.
  assert (E : monthlyBookingsOf allBookingDocuments target
              = monthlyBookingsOf allBookingDocuments target').
  { unfold monthlyBookingsOf. apply List.filter_ext. intros b.
    unfold isSameMonth. now rewrite Hy, Hm. }
  now rewrite E.
Qed.

(** 15 January and 31 January 2024. *)
Lemma recipe_depends_on_month_only_witness :
  calculateMonthlyClientMetrics twoProjects [packageProject; secondProject] [ana] jan15
  = calculateMonthlyClientMetrics twoProjects [packageProject; secondProject] [ana]
      (addDays jan15 16).
Proof.
  apply recipe_depends_on_month_only. reflexivity.
Defined.

End RecipeClaims.

Section MoreExtras.

Local Open Scope Q_scope.

(** The slots of the sample Monday asked for at 13:27:45.123: every slot
    is on a whole hour of that Monday. *)
Lemma generateTimeSlots_nine_to_six_witness :
  startOfDay (addHours jan15 9) = startOfDay (jan15 + 48465123)%Z
  /\ (addHours jan15 9 mod MS_PER_HOUR = 0)%Z.
Proof.
  destruct (generateTimeSlots_nine_to_six (jan15 + 48465123)%Z) as [Hlist Hslots].
  destruct (Hslots _ (addHours jan15 9) Hlist) as (_ & Hday & Hhour & _).
  - vm_compute. tauto.
  - split; assumption.
Defined.

(** The booking shown for a document: the names come from the first client
    and the first project that bear the ids of the document, or are the
    two placeholders; the service is ["Sessão para "] and the project name,
    and the title ends with the first 20 code units of the service, that
    is, with at most 8 code units of the project name. *)
Theorem week_booking_names_and_title
  (allClients : list ClientDocument) (allProjects : list ProjectDocument)
  (doc : BookingDocument) :
  exists clientName_ projectName : string,
    clientName_ = match findClient allClients (clientId doc) with
                  | Some c => client_name c
                  | None => "Cliente Desconhecido"%string
                  end
    /\ projectName = match findProject allProjects (projectId doc) with
                     | Some p => project_name p
                     | None => "Projeto Desconhecido"%string
                     end
    /\ wb_clientName (weekBookingOf allClients allProjects doc) = clientName_
    /\ wb_service (weekBookingOf allClients allProjects doc)
       = (sessaoPara ++ projectName)%string
    /\ wb_title (weekBookingOf allClients allProjects doc)
       = (clientName_ ++ " / " ++ projectName ++ " - "
          ++ sessaoPara ++ String.substring 0 8 projectName)%string
    /\ (findProject allProjects (projectId doc) = None ->
        wb_title (weekBookingOf allClients allProjects doc)
        = (clientName_ ++ " / Projeto Desconhecido - "
           ++ sessaoPara ++ "Projeto ")%string).
Proof.
  eexists. eexists. split; [ reflexivity | ]. split; [ reflexivity | ].
  split; [ reflexivity | ]. split; [ reflexivity | ].
  split; [ reflexivity | ].
  intros Hnone. unfold weekBookingOf. cbv zeta. rewrite Hnone. reflexivity.
Qed.

(** The document of the sample that names an unknown project. *)
Lemma week_booking_names_and_title_witness :
  wb_title (weekBookingOf [ana] [packageProject]
              (mkBookingDocument "b2" jan15 (addHours jan15 2) "c1" "p9" 2))
  = ("Ana / Projeto Desconhecido - " ++ sessaoPara ++ "Projeto ")%string.
Proof.
  destruct (week_booking_names_and_title [ana] [packageProject]
              (mkBookingDocument "b2" jan15 (addHours jan15 2) "c1" "p9" 2))
    as (c & p & Hc & _ & _ & _ & _ & Htitle).
  rewrite Htitle; [ | reflexivity ]. rewrite Hc. reflexivity.
Defined.

Lemma monthlyBookingsOf_other_months
  (allBookingDocuments extra : list BookingDocument) (targetDateForMonth : Date) :
  (forall b, In b extra -> isSameMonth (doc_startTime b) targetDateForMonth = false) ->
  monthlyBookingsOf (allBookingDocuments ++ extra) targetDateForMonth
  = monthlyBookingsOf allBookingDocuments targetDateForMonth.
Proof.
  intros Hextra. unfold monthlyBookingsOf.
  rewrite List.filter_app, (filter_none _ extra Hextra). apply app_nil_r.
Qed.

(** Bookings of other months set rates, not hours: adding bookings that
    start outside the target month keeps the names of the recipe and the
    hours of every client (the clients bearing distinct names). *)
Theorem other_months_leave_hours
  (allBookingDocuments extra : list BookingDocument)
  (allProjects : list ProjectDocument) (allClients : list ClientDocument)
  (targetDateForMonth : Date)
  (Hextra : forall b, In b extra ->
              isSameMonth (doc_startTime b) targetDateForMonth = false)
  (Hnames : List.NoDup (List.map client_name allClients)) :
  forall name : string,
    (is_Some (calculateMonthlyClientMetrics allBookingDocuments allProjects
                allClients targetDateForMonth !! name)
     <-> is_Some (calculateMonthlyClientMetrics (allBookingDocuments ++ extra)
                    allProjects allClients targetDateForMonth !! name))
    /\ forall m m' : ClientMonthlyMetrics,
         calculateMonthlyClientMetrics allBookingDocuments allProjects allClients
           targetDateForMonth !! name = Some m ->
         calculateMonthlyClientMetrics (allBookingDocuments ++ extra) allProjects
           allClients targetDateForMonth !! name = Some m' ->
         totalHours m == totalHours m'.
Proof.
  intros name.
  pose proof (monthlyBookingsOf_other_months allBookingDocuments extra
                targetDateForMonth Hextra) as Hmonthly.
  split.
  - rewrite !recipe_names.
    split; intros (b & client & Hin & Hmonth & Hrest); exists b, client;
      (split; [ | split; [ exact Hmonth | exact Hrest ] ]).
    + apply in_or_app. now left.
    + apply in_app_or in Hin. destruct Hin as [Hin | Hin]; [ exact Hin | ].
      rewrite (Hextra b Hin) in Hmonth. discriminate Hmonth.
  - intros m m' Hm Hm'.
    destruct (recipe_origin _ _ _ _ _ _ Hm) as (c & Hc & Hn & _ & ->).
    destruct (recipe_origin _ _ _ _ _ _ Hm') as (c' & Hc' & Hn' & _ & ->).
    destruct (findClient_some _ _ _ Hc) as [Hin _].
    destruct (findClient_some _ _ _ Hc') as [Hin' _].
    assert (c' = c) as ->.
    { apply (distinct_names allClients); auto. congruence. }
    unfold clientMonthlyBookings. rewrite Hmonthly.
    destruct (clientMetrics_sums allBookingDocuments allProjects
                (List.filter (fun b => String.eqb (clientId b) (client_id c))
                   (monthlyBookingsOf allBookingDocuments targetDateForMonth)))
      as (Hh & _ & _).
    destruct (clientMetrics_sums (allBookingDocuments ++ extra) allProjects
                (List.filter (fun b => String.eqb (clientId b) (client_id c))
                   (monthlyBookingsOf allBookingDocuments targetDateForMonth)))
      as (Hh' & _ & _).
    rewrite Hh, Hh'. apply Qsum_ext_in. intros b _.
    unfold billedHours, lifetimeRate.
    now destruct (findProject allProjects (projectId b)).
Qed.

(** The sample with two projects, with and without its booking of
    February: 15 hours in January either way. *)
Lemma other_months_leave_hours_witness :
  totalHours {| totalHours := 15; pricePerHour := 4350 # 15; totalAmount := 4350 |}
  == totalHours {| totalHours := 15; pricePerHour := 3400 # 15; totalAmount := 3400 |}.
Proof.
  destruct (other_months_leave_hours (firstn 2 twoProjects) (skipn 2 twoProjects)
              [packageProject; secondProject] [ana] jan15) with (name := "Ana"%string)
    as [_ Hhours].
  - intros b [<- | []]. reflexivity.
  - repeat constructor; simpl; intuition discriminate.
  - apply Hhours; vm_compute; reflexivity.
Defined.

End MoreExtras.

Lemma List_filter_true {A : Type} (l : list A) : List.filter (fun _ => true) l = l.
Proof. induction l as [| x l IH]; simpl; [ reflexivity | now rewrite IH ]. Qed.

(** * Dictionaries as plain objects *)

Section JsGrouping.

Context {V : Type} (key : V -> string).

Lemma groupInto_fold (xs : list V) (d : Dict (list V)) :
  Js.groupInto key xs d
  = if existsb (fun x => Js.inheritedKey (key x)) xs then Js.TypeError
    else Js.Returned (fold_left (fun d x => pushTo (key x) x d) xs d).
Proof.
  revert d. induction xs as [| x xs IH]; intros d; cbn [Js.groupInto existsb fold_left];
    [ reflexivity | ].
  unfold Js.push. destruct (Js.inheritedKey (key x)); cbn [orb]; [ reflexivity | ].
  apply IH.
Qed.

(** The loop that fills a dictionary throws exactly when one of the keys is
    inherited; if not, it builds the groups. *)
Lemma Js_groupBy_cases (xs : list V) :
  Js.groupBy key xs
  = if existsb (fun x => Js.inheritedKey (key x)) xs then Js.TypeError
    else Js.Returned (groupBy key xs).
Proof. unfold Js.groupBy, groupBy. apply groupInto_fold. Qed.

Lemma filter_filter_and {A : Type} (p q : A -> bool) (l : list A) :
  List.filter p (List.filter q l) = List.filter (fun x => q x && p x) l.
Proof.
  induction l as [| x l IH]; simpl; [ reflexivity | ].
  destruct (q x); simpl; [ | exact IH ].
  destruct (p x); now rewrite IH.
Qed.

Lemma notin_existsb (k : string) (keys : list string) :
  existsb (String.eqb k) keys = true <-> In k keys.
Proof.
  rewrite existsb_exists. split.
  - intros (k' & Hin & E). apply String.eqb_eq in E. now subst.
  - intros Hin. exists k. split; [ exact Hin | apply String.eqb_refl ].
Qed.

(** The keys of the groups, in the order of their creation. *)
Lemma fold_pushTo_keys (xs : list V) (d : Dict (list V)) :
  List.map fst (fold_left (fun d x => pushTo (key x) x d) xs d)
  = List.map fst d
    ++ List.filter (fun k => negb (existsb (String.eqb k) (List.map fst d)))
         (Js.distinct (List.map key xs)).
Proof.
  revert d. induction xs as [| x xs IH]; intros d; cbn [fold_left List.map Js.distinct];
    [ simpl; now rewrite app_nil_r | ].
  rewrite IH. cbn [List.filter].
  destruct (in_dec string_dec (key x) (List.map fst d)) as [Hin | Hnot].
  - rewrite pushTo_keys_old by assumption.
    rewrite (proj2 (notin_existsb (key x) (List.map fst d)) Hin). cbn [negb].
    f_equal. rewrite filter_filter_and. apply List.filter_ext_in.
    intros k _. destruct (String.eqb_spec k (key x)) as [-> | _]; cbn [negb];
      [ | now rewrite andb_true_l ].
    rewrite (proj2 (notin_existsb (key x) (List.map fst d)) Hin). reflexivity.
  - rewrite pushTo_keys_new by assumption.
    assert (E : existsb (String.eqb (key x)) (List.map fst d) = false).
    { destruct (existsb (String.eqb (key x)) (List.map fst d)) eqn:E; [ | reflexivity ].
      apply notin_existsb in E. contradiction. }
    rewrite E. cbn [negb]. rewrite <- app_assoc. cbn [app]. f_equal. f_equal.
    rewrite filter_filter_and. apply List.filter_ext. intros k.
    rewrite existsb_app. cbn [existsb]. rewrite orb_false_r, negb_orb.
    apply andb_comm.
Qed.

Lemma groupBy_keys (xs : list V) :
  List.map fst (groupBy key xs) = Js.distinct (List.map key xs).
Proof.
  unfold groupBy. rewrite fold_pushTo_keys. cbn [List.map app existsb negb].
  apply List_filter_true.
Qed.

End JsGrouping.

Section JsEntries.

Context {V : Type} (key : V -> string).

(** The groups, key by key. *)
Lemma groupBy_entries (xs : list V) :
  groupBy key xs
  = List.map (fun k => (k, List.filter (fun x => String.eqb (key x) k) xs))
      (Js.distinct (List.map key xs)).
Proof.
  rewrite <- groupBy_keys, List.map_map.
  destruct (GroupsOf_groupBy key xs) as (_ & Hval & _).
  rewrite <- (List.map_id (groupBy key xs)) at 1.
  apply List.map_ext_in. intros [k vs] Hin. cbn [fst].
  now destruct (Hval k vs Hin) as [-> _].
Qed.

End JsEntries.

Section ForInMap.

Context {V W : Type} (h : string * V -> string * W).
Hypothesis h_key : forall e, fst (h e) = fst e.

Lemma indexEntries_map (d : Dict V) :
  indexEntries (List.map h d)
  = List.map (fun ne => (fst ne, h (snd ne))) (indexEntries d).
Proof.
  induction d as [| e d IH]; [ reflexivity | ].
  unfold indexEntries in *. cbn [List.map flat_map]. rewrite h_key, IH.
  destruct (arrayIndex (fst e)); reflexivity.
Qed.

Lemma insertByIndex_map (e : N * (string * V)) (l : list (N * (string * V))) :
  insertByIndex (fst e, h (snd e)) (List.map (fun ne => (fst ne, h (snd ne))) l)
  = List.map (fun ne => (fst ne, h (snd ne))) (insertByIndex e l).
Proof.
  induction l as [| e' l IH]; [ reflexivity | ].
  cbn [List.map insertByIndex fst].
  destruct (fst e <=? fst e')%N; cbn [List.map]; [ reflexivity | ].
  now rewrite IH.
Qed.

Lemma sortByIndex_map (l : list (N * (string * V))) :
  sortByIndex (List.map (fun ne => (fst ne, h (snd ne))) l)
  = List.map (fun ne => (fst ne, h (snd ne))) (sortByIndex l).
Proof.
  induction l as [| e l IH]; [ reflexivity | ].
  unfold sortByIndex in *. cbn [List.map fold_right].
  rewrite IH. apply insertByIndex_map.
Qed.

Lemma nameEntries_map (d : Dict V) :
  nameEntries (List.map h d) = List.map h (nameEntries d).
Proof.
  induction d as [| e d IH]; [ reflexivity | ].
  unfold nameEntries in *. cbn [List.map List.filter]. rewrite h_key, IH.
  destruct (arrayIndex (fst e)); reflexivity.
Qed.

(** The order of [for ... in] looks at the keys only. *)
Lemma forInEntries_map (d : Dict V) :
  forInEntries (List.map h d) = List.map h (forInEntries d).
Proof.
  unfold forInEntries.
  rewrite indexEntries_map, sortByIndex_map, nameEntries_map.
  rewrite List.map_app, !List.map_map. reflexivity.
Qed.

End ForInMap.

Lemma forInEntries_keys {W : Type} (f : string -> W) (keys : list string) :
  forInEntries (List.map (fun k => (k, f k)) keys)
  = List.map (fun k => (k, f k)) (Js.forInKeys keys).
Proof.
  unfold Js.forInKeys. rewrite List.map_map.
  rewrite <- (forInEntries_map (fun e : string * unit => (fst e, f (fst e))))
    by reflexivity.
  now rewrite List.map_map.
Qed.

Lemma forInKeys_In (k : string) (keys : list string) :
  In k (Js.forInKeys keys) <-> In k keys.
Proof.
  unfold Js.forInKeys.
  pose proof (forInEntries_Permutation (List.map (fun k => (k, tt)) keys)) as Hp.
  apply (Permutation_map fst) in Hp. rewrite List.map_map in Hp. cbn [fst] in Hp.
  rewrite List.map_id in Hp.
  split; apply Permutation_in; [ exact Hp | now symmetry ].
Qed.

Lemma distinct_In (k : string) (keys : list string) :
  In k (Js.distinct keys) <-> In k keys.
Proof.
  induction keys as [| k0 keys IH]; [ reflexivity | ].
  cbn [Js.distinct In]. rewrite filter_In, IH.
  destruct (String.eqb_spec k k0) as [-> | Hne]; cbn [negb].
  - split; [ intros [H | [_ H]]; [ now left | discriminate H ] | now left ].
  - split; [ intros [H | [H _]]; auto | intros [H | H]; auto ].
Qed.

(** * Project cost on doubles *)

Section JsCost.

#[local] Set Warnings "-inexact-float".
Local Open Scope float_scope.

Lemma fold_sumFrom {A : Type} (f : A -> float) (xs : list A) (acc : float) :
  fold_left (fun sum x => sum + f x) xs acc = Js.sumFrom acc (List.map f xs).
Proof.
  revert acc. induction xs as [| x xs IH]; intros acc; [ reflexivity | apply IH ].
Qed.

Lemma reduceSum_sumOf {A : Type} (f : A -> float) (xs : list A) :
  Js.reduceSum f xs = Js.sumOf (List.map f xs).
Proof. apply fold_sumFrom. Qed.

Lemma getProjectPricePerHour_table (project : Js.ProjectDocument) (hours : float) :
  Js.getProjectPricePerHour project hours
  = match Js.billingType project, Js.customRate project with
    | personalizado, Some rate => rate
    | _, _ => Js.tableRate hours
    end.
Proof.
  assert (E : (if 40 <=? hours then 160
               else if 20 <=? hours then 230
               else if 10 <=? hours then 260 else 350) = Js.tableRate hours).
  { unfold Js.tableRate, Js.rateTable. cbn [List.find fst snd].
    destruct (40 <=? hours); [ reflexivity | ].
    destruct (20 <=? hours); [ reflexivity | ].
    destruct (10 <=? hours); reflexivity. }
  unfold Js.getProjectPricePerHour.
  destruct (Js.billingType project), (Js.customRate project); auto.
Qed.

Lemma getProjectPricePerHour_resolves (project : Js.ProjectDocument) (hours : float) :
  Js.resolvesRate project hours (Js.getProjectPricePerHour project hours).
Proof.
  rewrite getProjectPricePerHour_table. split.
  - intros r -> ->. reflexivity.
  - intros [-> | ->]; [ reflexivity | ].
    now destruct (Js.billingType project).
Qed.

(** C4: for a present project, [calculateProjectCost] adds the durations of
    the bookings, from 0 and in their order, into [totalHours]; its
    [pricePerHour] is the rate that the project resolves from that total
    (the custom rate, or the tier of the total in the table 40 h: 160,
    20 h: 230, 10 h: 260, else 350); and [totalAmount] is the product of
    the two.  A package project with bookings of 5 h and 6 h gets 11 h, 260
    per hour and 2860.  Sums and product are those of the doubles. *)
Theorem calculateProjectCost_sums_and_prices
  (project : Js.ProjectDocument) (projectBookings : list Js.BookingDocument) :
  exists m : Js.ProjectCostMetrics,
    Js.calculateProjectCost projectBookings (Some project) = Some m
    /\ Js.totalHours m = Js.sumOf (List.map Js.duration projectBookings)
    /\ Js.resolvesRate project (Js.totalHours m) (Js.pricePerHour m)
    /\ Js.totalAmount m = Js.totalHours m * Js.pricePerHour m
    /\ (forall b1 b2 : Js.BookingDocument,
          Js.billingType project = pacote ->
          projectBookings = [b1; b2] ->
          Js.duration b1 = 5 -> Js.duration b2 = 6 ->
          m = {| Js.totalHours := 11;
                 Js.pricePerHour := 260;
                 Js.totalAmount := 2860 |}).
Proof.
  eexists. split; [ reflexivity | ].
  cbn [Js.totalHours Js.pricePerHour Js.totalAmount].
  split; [ apply reduceSum_sumOf | ].
  split; [ apply getProjectPricePerHour_resolves | ].
  split; [ reflexivity | ].
  intros b1 b2 Hpackage -> H5 H6.
  unfold Js.reduceSum, Js.getProjectPricePerHour. cbn [fold_left].
  rewrite Hpackage, H5, H6. reflexivity.
Qed.

(** The sample package project with its bookings of 5 h and 6 h. *)
Lemma calculateProjectCost_sums_and_prices_witness :
  Js.calculateProjectCost Js.elevenHours (Some Js.packageProject)
  = Some {| Js.totalHours := 11; Js.pricePerHour := 260; Js.totalAmount := 2860 |}.
Proof.
  destruct (calculateProjectCost_sums_and_prices Js.packageProject Js.elevenHours)
    as (m & E & _ & _ & _ & Hex).
  rewrite E. f_equal. apply (Hex _ _ eq_refl eq_refl); reflexivity.
Defined.

(** Durations of 0.1 h, 8.2 h and 1.7 h add up to 9.999999999999998 h, below
    the threshold of 10 h: the rate is 350. *)
Example calculateProjectCost_almost_ten :
  Js.calculateProjectCost Js.almostTen (Some Js.packageProject)
  = Some {| Js.totalHours := 9.999999999999998;
            Js.pricePerHour := 350;
            Js.totalAmount := 3499.9999999999995 |}.
Proof. reflexivity. Qed.

End JsCost.

(** * The monthly recipe on doubles *)

Section JsClient.

#[local] Set Warnings "-inexact-float".
Local Open Scope float_scope.

Variable allBookingDocuments : list Js.BookingDocument.
Variable allProjects : list Js.ProjectDocument.
Variable targetDateForMonth : Date.

Lemma fold_left_map_ext {A B C : Type} (f : A -> B -> A) (f' : A -> C -> A)
  (g : C -> B) (l : list C) (a : A) :
  (forall a x, f a (g x) = f' a x) ->
  fold_left f (List.map g l) a = fold_left f' l a.
Proof.
  intros H. revert a. induction l as [| x l IH]; intros a; [ reflexivity | ].
  cbn [List.map fold_left]. rewrite H. apply IH.
Qed.

Lemma findProject_id (pid : string) (project : Js.ProjectDocument) :
  Js.findProject allProjects pid = Some project ->
  In project allProjects /\ Js.project_id project = pid.
Proof.
  unfold Js.findProject. intros H. apply find_some in H.
  destruct H as [Hin E]. split; [ exact Hin | now apply String.eqb_eq ].
Qed.

Lemma clientMonthly_project (cid pid : string) :
  List.filter (fun b => String.eqb (Js.projectId b) pid)
    (Js.clientMonthly allBookingDocuments targetDateForMonth cid)
  = Js.pairBookings allBookingDocuments targetDateForMonth cid pid.
Proof. unfold Js.clientMonthly, Js.pairBookings. apply filter_filter_and. Qed.

(** One turn of the loop over the project groups adds the pair. *)
Lemma projectStep_addPair (cid pid : string) (totals : float * float) :
  Js.projectStep allBookingDocuments allProjects totals
    (pid, List.filter (fun b => String.eqb (Js.projectId b) pid)
            (Js.clientMonthly allBookingDocuments targetDateForMonth cid))
  = Js.addPair allBookingDocuments allProjects targetDateForMonth cid totals pid.
Proof.
  destruct totals as [h a]. unfold Js.projectStep, Js.addPair.
  destruct (Js.findProject allProjects pid) as [project |] eqn:E; [ | reflexivity ].
  destruct (findProject_id _ _ E) as [_ Hid].
  cbn [Js.calculateProjectCost Js.pricePerHour fst snd].
  rewrite clientMonthly_project, !reduceSum_sumOf, getProjectPricePerHour_table.
  unfold Js.pairMonthlyHours, Js.lifetimeRate, Js.lifetimeHours. rewrite Hid.
  reflexivity.
Qed.

(** The metrics of a client from the bookings of its month: a [TypeError]
    when a project id is inherited, the totals of its pairs if not. *)
Lemma clientMetrics_cases (cid : string) :
  Js.clientMetrics allBookingDocuments allProjects
    (Js.clientMonthly allBookingDocuments targetDateForMonth cid)
  = if existsb (fun b => Js.inheritedKey (Js.projectId b))
         (Js.clientMonthly allBookingDocuments targetDateForMonth cid)
    then Js.TypeError
    else
      Js.Returned
        {| Js.totalHours :=
             fst (Js.monthTotals allBookingDocuments allProjects targetDateForMonth cid);
           Js.pricePerHour :=
             if 0 <? fst (Js.monthTotals allBookingDocuments allProjects
                            targetDateForMonth cid)
             then snd (Js.monthTotals allBookingDocuments allProjects
                         targetDateForMonth cid)
                  / fst (Js.monthTotals allBookingDocuments allProjects
                           targetDateForMonth cid)
             else 0;
           Js.totalAmount :=
             snd (Js.monthTotals allBookingDocuments allProjects targetDateForMonth cid)
        |}.
Proof.
  unfold Js.clientMetrics. rewrite Js_groupBy_cases.
  destruct (existsb _ _); [ reflexivity | ].
  rewrite groupBy_entries, forInEntries_keys.
  rewrite (fold_left_map_ext _
             (Js.addPair allBookingDocuments allProjects targetDateForMonth cid))
    by (intros t pid; apply projectStep_addPair).
  fold (Js.clientProjects allBookingDocuments targetDateForMonth cid).
  fold (Js.monthTotals allBookingDocuments allProjects targetDateForMonth cid).
  now destruct (Js.monthTotals allBookingDocuments allProjects targetDateForMonth cid).
Qed.

End JsClient.

Section JsLoop.

#[local] Set Warnings "-inexact-float".
Local Open Scope float_scope.

Variable allBookingDocuments : list Js.BookingDocument.
Variable allProjects : list Js.ProjectDocument.
Variable allClients : list ClientDocument.

Lemma assign_lookup (name name' : string) (m : Js.ClientMonthlyMetrics)
  (recipe : gmap string Js.ClientMonthlyMetrics) :
  Js.assign name m recipe !! name'
  = if String.eqb name "__proto__" then recipe !! name'
    else if String.eqb name name' then Some m else recipe !! name'.
Proof.
  unfold Js.assign. destruct (String.eqb name "__proto__"); [ reflexivity | ].
  destruct (String.eqb_spec name name') as [-> | Hne].
  - apply lookup_insert_eq.
  - now apply lookup_insert_ne.
Qed.

Lemma clientLoop_keeps (entries : Dict (list Js.BookingDocument))
  (acc recipe : gmap string Js.ClientMonthlyMetrics) (name : string) :
  Js.clientLoop allBookingDocuments allProjects allClients entries acc
  = Js.Returned recipe ->
  is_Some (acc !! name) -> is_Some (recipe !! name).
Proof.
  revert acc. induction entries as [| [cid bs] entries IH]; intros acc Hloop Hacc;
    cbn [Js.clientLoop] in Hloop.
  - injection Hloop as <-. exact Hacc.
  - destruct (findClient allClients cid) as [client |]; [ | now apply (IH acc) ].
    destruct (Js.clientMetrics allBookingDocuments allProjects bs) as [m |];
      [ | discriminate Hloop ].
    apply (IH _ Hloop). rewrite assign_lookup.
    destruct (String.eqb (client_name client) "__proto__"); [ exact Hacc | ].
    destruct (String.eqb (client_name client) name); [ eauto | exact Hacc ].
Qed.

Lemma clientLoop_writes (entries : Dict (list Js.BookingDocument))
  (acc recipe : gmap string Js.ClientMonthlyMetrics)
  (cid : string) (bs : list Js.BookingDocument) (client : ClientDocument) :
  Js.clientLoop allBookingDocuments allProjects allClients entries acc
  = Js.Returned recipe ->
  In (cid, bs) entries ->
  findClient allClients cid = Some client ->
  client_name client <> "__proto__"%string ->
  is_Some (recipe !! client_name client).
Proof.
  revert acc. induction entries as [| [cid' bs'] entries IH];
    intros acc Hloop Hin Hfind Hname; [ contradiction | ].
  cbn [Js.clientLoop] in Hloop. destruct Hin as [[= -> ->] | Hin].
  - rewrite Hfind in Hloop.
    destruct (Js.clientMetrics allBookingDocuments allProjects bs) as [m |];
      [ | discriminate Hloop ].
    apply (clientLoop_keeps _ _ _ _ Hloop). rewrite assign_lookup.
    destruct (String.eqb_spec (client_name client) "__proto__") as [E | _];
      [ contradiction | ].
    rewrite String.eqb_refl. eauto.
  - destruct (findClient allClients cid') as [client' |]; [ | now apply (IH acc) ].
    destruct (Js.clientMetrics allBookingDocuments allProjects bs') as [m |];
      [ | discriminate Hloop ].
    now apply (IH _ Hloop).
Qed.

Lemma clientLoop_origin (entries : Dict (list Js.BookingDocument))
  (acc recipe : gmap string Js.ClientMonthlyMetrics)
  (name : string) (m : Js.ClientMonthlyMetrics) :
  Js.clientLoop allBookingDocuments allProjects allClients entries acc
  = Js.Returned recipe ->
  recipe !! name = Some m ->
  acc !! name = Some m
  \/ exists cid bs client,
       In (cid, bs) entries
       /\ findClient allClients cid = Some client
       /\ client_name client = name
       /\ name <> "__proto__"%string
       /\ Js.clientMetrics allBookingDocuments allProjects bs = Js.Returned m.
Proof.
  revert acc. induction entries as [| [cid bs] entries IH]; intros acc Hloop Hm;
    cbn [Js.clientLoop] in Hloop.
  - injection Hloop as <-. now left.
  - destruct (findClient allClients cid) as [client |] eqn:Hfind.
    + destruct (Js.clientMetrics allBookingDocuments allProjects bs) as [m' |] eqn:Hcm;
        [ | discriminate Hloop ].
      destruct (IH _ Hloop Hm) as [Hacc | (cid' & bs' & c' & Hin & H)].
      * rewrite assign_lookup in Hacc.
        destruct (String.eqb_spec (client_name client) "__proto__") as [E | Hne];
          [ now left | ].
        destruct (String.eqb_spec (client_name client) name) as [E | _];
          [ | now left ].
        injection Hacc as <-. right. exists cid, bs, client.
        repeat split; auto; [ now left | congruence ].
      * right. exists cid', bs', c'. split; [ now right | exact H ].
    + destruct (IH _ Hloop Hm) as [Hacc | (cid' & bs' & c' & Hin & H)];
        [ now left | ].
      right. exists cid', bs', c'. split; [ now right | exact H ].
Qed.


End JsLoop.

Section JsRecipe.

#[local] Set Warnings "-inexact-float".
Local Open Scope float_scope.

Variable allBookingDocuments : list Js.BookingDocument.
Variable allProjects : list Js.ProjectDocument.
Variable allClients : list ClientDocument.
Variable targetDateForMonth : Date.

Lemma Js_entries_groups :
  GroupsOf Js.clientId
    (forInEntries
       (groupBy Js.clientId
          (List.filter (Js.inMonth targetDateForMonth) allBookingDocuments)))
    (List.filter (Js.inMonth targetDateForMonth) allBookingDocuments).
Proof.
  apply (GroupsOf_Permutation Js.clientId
           (groupBy Js.clientId
              (List.filter (Js.inMonth targetDateForMonth) allBookingDocuments))).
  - symmetry. apply forInEntries_Permutation.
  - apply GroupsOf_groupBy.
Qed.

Lemma Js_entry_value (cid : string) (bs : list Js.BookingDocument) :
  In (cid, bs)
     (forInEntries
        (groupBy Js.clientId
           (List.filter (Js.inMonth targetDateForMonth) allBookingDocuments))) ->
  bs = Js.clientMonthly allBookingDocuments targetDateForMonth cid /\ bs <> [].
Proof.
  intros Hin. destruct Js_entries_groups as (_ & Hval & _).
  destruct (Hval cid bs Hin) as [-> Hne]. split; [ | exact Hne ].
  unfold Js.clientMonthly. apply filter_filter_and.
Qed.

Lemma Js_calculate_cases :
  Js.calculateMonthlyClientMetrics allBookingDocuments allProjects allClients
    targetDateForMonth
  = if existsb (fun b => Js.inheritedKey (Js.clientId b))
         (List.filter (Js.inMonth targetDateForMonth) allBookingDocuments)
    then Js.TypeError
    else Js.clientLoop allBookingDocuments allProjects allClients
           (forInEntries
              (groupBy Js.clientId
                 (List.filter (Js.inMonth targetDateForMonth) allBookingDocuments)))
           ∅.
Proof.
  unfold Js.calculateMonthlyClientMetrics. cbv zeta.
  change (fun b : Js.BookingDocument =>
            isSameMonth (Js.doc_startTime b) targetDateForMonth)
    with (Js.inMonth targetDateForMonth).
  rewrite Js_groupBy_cases. now destruct (existsb _ _).
Qed.

Lemma clientMonthly_In (cid : string) (b : Js.BookingDocument) :
  In b (Js.clientMonthly allBookingDocuments targetDateForMonth cid)
  <-> In b allBookingDocuments
      /\ Js.inMonth targetDateForMonth b = true
      /\ Js.clientId b = cid.
Proof.
  unfold Js.clientMonthly. rewrite filter_In, andb_true_iff, String.eqb_eq. tauto.
Qed.

(** Every entry of the recipe returned is the metrics of a client that is
    found, over the bookings of its month. *)
Lemma Js_recipe_origin (recipe : gmap string Js.ClientMonthlyMetrics)
  (name : string) (m : Js.ClientMonthlyMetrics) :
  Js.calculateMonthlyClientMetrics allBookingDocuments allProjects allClients
    targetDateForMonth = Js.Returned recipe ->
  recipe !! name = Some m ->
  exists client,
    findClient allClients (client_id client) = Some client
    /\ client_name client = name
    /\ name <> "__proto__"%string
    /\ (exists b, In b allBookingDocuments
                  /\ Js.inMonth targetDateForMonth b = true
                  /\ Js.clientId b = client_id client)
    /\ Js.clientMetrics allBookingDocuments allProjects
         (Js.clientMonthly allBookingDocuments targetDateForMonth (client_id client))
       = Js.Returned m.
Proof.
  rewrite Js_calculate_cases. destruct (existsb _ _); [ discriminate | ].
  intros Hloop Hm.
  destruct (clientLoop_origin _ _ _ _ _ _ _ _ Hloop Hm)
    as [Habs | (cid & bs & client & Hin & Hfind & Hname & Hproto & Hcm)].
  - rewrite lookup_empty in Habs. discriminate Habs.
  - destruct (Js_entry_value cid bs Hin) as [-> Hne].
    destruct (findClient_some _ _ _ Hfind) as [_ Hid].
    exists client. rewrite Hid. repeat split; auto.
    destruct (Js.clientMonthly allBookingDocuments targetDateForMonth cid)
      as [| b rest] eqn:E; [ now destruct Hne | ].
    exists b. apply clientMonthly_In. rewrite E. now left.
Qed.

(** A client that is found for a booking of the month has an entry, unless
    its name is ["__proto__"]. *)
Lemma Js_recipe_entry (recipe : gmap string Js.ClientMonthlyMetrics)
  (b : Js.BookingDocument) (client : ClientDocument) :
  Js.calculateMonthlyClientMetrics allBookingDocuments allProjects allClients
    targetDateForMonth = Js.Returned recipe ->
  In b allBookingDocuments ->
  Js.inMonth targetDateForMonth b = true ->
  findClient allClients (Js.clientId b) = Some client ->
  client_name client <> "__proto__"%string ->
  is_Some (recipe !! client_name client).
Proof.
  rewrite Js_calculate_cases. destruct (existsb _ _); [ discriminate | ].
  intros Hloop Hin Hmonth Hfind Hname.
  destruct Js_entries_groups as (_ & _ & Hcov).
  assert (Hb : In b (List.filter (Js.inMonth targetDateForMonth) allBookingDocuments))
    by (apply filter_In; auto).
  specialize (Hcov b Hb). apply in_map_iff in Hcov.
  destruct Hcov as ([cid bs] & Hcid & Hentry). simpl in Hcid. subst cid.
  exact (clientLoop_writes _ _ _ _ _ _ _ _ _ Hloop Hentry Hfind Hname).
Qed.



(** The metrics of an entry, read off the totals of the pairs. *)
Lemma Js_metrics_totals (cid : string) (m : Js.ClientMonthlyMetrics) :
  Js.clientMetrics allBookingDocuments allProjects
    (Js.clientMonthly allBookingDocuments targetDateForMonth cid) = Js.Returned m ->
  (Js.totalHours m, Js.totalAmount m)
  = Js.monthTotals allBookingDocuments allProjects targetDateForMonth cid
  /\ Js.pricePerHour m
     = (if 0 <? Js.totalHours m then Js.totalAmount m / Js.totalHours m else 0).
Proof.
  rewrite clientMetrics_cases. destruct (existsb _ _); [ discriminate | ].
  intros [= <-]. cbn [Js.totalHours Js.totalAmount Js.pricePerHour].
  split; [ | reflexivity ].
  now destruct (Js.monthTotals allBookingDocuments allProjects targetDateForMonth cid).
Qed.

End JsRecipe.

Section JsClaims.

#[local] Set Warnings "-inexact-float".
Local Open Scope float_scope.







End JsClaims.

Section JsExtras.

#[local] Set Warnings "-inexact-float".
Local Open Scope float_scope.

(** A custom project that has a rate is priced at that rate whatever the
    hours, and its cost is the sum of the durations times that rate. *)
Theorem custom_rate_ignores_hours (project : Js.ProjectDocument) (rate : float)
  (projectBookings : list Js.BookingDocument)
  (Hcustom : Js.billingType project = personalizado)
  (Hrate : Js.customRate project = Some rate) :
  (forall totalHours : float, Js.getProjectPricePerHour project totalHours = rate)
  /\ Js.calculateProjectCost projectBookings (Some project)
     = Some {| Js.totalHours := Js.sumOf (List.map Js.duration projectBookings);
               Js.pricePerHour := rate;
               Js.totalAmount :=
                 Js.sumOf (List.map Js.duration projectBookings) * rate |}.
Proof.
  assert (Hget : forall totalHours : float,
            Js.getProjectPricePerHour project totalHours = rate).
  { intros totalHours. unfold Js.getProjectPricePerHour.
    now rewrite Hcustom, Hrate. }
  split; [ exact Hget | ].
  unfold Js.calculateProjectCost. cbv zeta.
  now rewrite Hget, reduceSum_sumOf.
Qed.

(** 45 h on a custom project at 100: 4500, where the tiers give 160. *)
Lemma custom_rate_ignores_hours_witness :
  Js.calculateProjectCost
    [Js.mkBookingDocument "b1" jan15 (addHours jan15 45) "c1" "p4" 45]
    (Some (Js.mkProject "p4" "Trilha" personalizado (Some 100) None))
  = Some {| Js.totalHours := 45; Js.pricePerHour := 100; Js.totalAmount := 4500 |}.
Proof.
  exact (proj2 (custom_rate_ignores_hours
                  (Js.mkProject "p4" "Trilha" personalizado (Some 100) None) 100
                  [Js.mkBookingDocument "b1" jan15 (addHours jan15 45) "c1" "p4" 45]
                  eq_refl eq_refl)).
Defined.

(** The keys of the recipe returned are exactly the names, other than
    ["__proto__"], of the clients found for a booking that starts in the
    target month; with no booking in the month the recipe is empty. *)
Theorem recipe_keys_are_clients_of_month
  (allBookingDocuments : list Js.BookingDocument)
  (allProjects : list Js.ProjectDocument)
  (allClients : list ClientDocument) (targetDateForMonth : Date)
  (recipe : gmap string Js.ClientMonthlyMetrics)
  (Hret : Js.calculateMonthlyClientMetrics allBookingDocuments allProjects
            allClients targetDateForMonth = Js.Returned recipe) :
  (forall name : string,
     is_Some (recipe !! name)
     <-> name <> "__proto__"%string
         /\ exists (b : Js.BookingDocument) (client : ClientDocument),
              In b allBookingDocuments
              /\ Js.inMonth targetDateForMonth b = true
              /\ findClient allClients (Js.clientId b) = Some client
              /\ client_name client = name)
  /\ ((forall b, In b allBookingDocuments -> Js.inMonth targetDateForMonth b = false) ->
      recipe = ∅).
Proof.
  split.
  - intros name. split.
    + intros [m Hm].
      destruct (Js_recipe_origin _ _ _ _ _ _ _ Hret Hm)
        as (client & Hfind & Hname & Hproto & (b & Hin & Hmonth & Hid) & _).
      split; [ exact Hproto | ].
      exists b, client. rewrite Hid. auto.
    + intros (Hproto & b & client & Hin & Hmonth & Hfind & <-).
      exact (Js_recipe_entry _ _ _ _ _ _ _ Hret Hin Hmonth Hfind Hproto).
  - intros Hnone. apply map_empty. intros name.
    destruct (recipe !! name) as [m |] eqn:Hm; [ | reflexivity ].
    destruct (Js_recipe_origin _ _ _ _ _ _ _ Hret Hm)
      as (_ & _ & _ & _ & (b & Hin & Hmonth & _) & _).
    rewrite (Hnone b Hin) in Hmonth. discriminate Hmonth.
Qed.

(** The sample with dangling references: Ana has an entry, Bia, who has no
    booking, has none. *)
Lemma recipe_keys_are_clients_of_month_witness :
  exists recipe : gmap string Js.ClientMonthlyMetrics,
    Js.calculateMonthlyClientMetrics Js.dangling [Js.packageProject] [ana; bia] jan15
    = Js.Returned recipe
    /\ is_Some (recipe !! "Ana"%string)
    /\ recipe !! "Bia"%string = None.
Proof.
  destruct (Js.calculateMonthlyClientMetrics Js.dangling [Js.packageProject]
              [ana; bia] jan15) as [recipe |] eqn:Hret.
  - exists recipe. split; [ reflexivity | ].
    destruct (recipe_keys_are_clients_of_month _ _ _ _ _ Hret) as [Hkeys _].
    split.
    + apply Hkeys. split; [ discriminate | ].
      exists (Js.mkBookingDocument "b1" jan15 (addHours jan15 3) "c1" "p1" 3), ana.
      split; [ now left | ]. repeat split.
    + vm_compute in Hret. injection Hret as <-. reflexivity.
  - vm_compute in Hret. discriminate Hret.
Defined.

(** A client that is found, whose bookings of the month are all on projects
    that are not found, has the entry 0 h, 0 per hour, 0 (the names of the
    clients being distinct and this one not ["__proto__"]). *)
Theorem client_without_known_project_gets_zeros
  (allBookingDocuments : list Js.BookingDocument)
  (allProjects : list Js.ProjectDocument)
  (allClients : list ClientDocument) (targetDateForMonth : Date)
  (recipe : gmap string Js.ClientMonthlyMetrics)
  (b : Js.BookingDocument) (client : ClientDocument)
  (Hret : Js.calculateMonthlyClientMetrics allBookingDocuments allProjects
            allClients targetDateForMonth = Js.Returned recipe)
  (Hnames : List.NoDup (List.map client_name allClients))
  (Hin : In b allBookingDocuments)
  (Hmonth : Js.inMonth targetDateForMonth b = true)
  (Hfind : findClient allClients (Js.clientId b) = Some client)
  (Hproto : client_name client <> "__proto__"%string)
  (Hunknown : forall b', In b' allBookingDocuments ->
                Js.inMonth targetDateForMonth b' = true ->
                Js.clientId b' = Js.clientId b ->
                Js.findProject allProjects (Js.projectId b') = None) :
  recipe !! client_name client
  = Some {| Js.totalHours := 0; Js.pricePerHour := 0; Js.totalAmount := 0 |}.
Proof.
  destruct (Js_recipe_entry _ _ _ _ _ _ _ Hret Hin Hmonth Hfind Hproto) as [m Hm].
  refine (eq_trans Hm _). f_equal.
  destruct (Js_recipe_origin _ _ _ _ _ _ _ Hret Hm)
    as (client' & Hfind' & Hname' & _ & _ & Hcm).
  destruct (findClient_some _ _ _ Hfind) as [Hc Hid].
  destruct (findClient_some _ _ _ Hfind') as [Hc' _].
  assert (client' = client) as -> by now apply (distinct_names allClients).
  rewrite Hid in Hcm.
  destruct (Js_metrics_totals _ _ _ _ _ Hcm) as [Htot Hprice].
  assert (Hzero : Js.monthTotals allBookingDocuments allProjects targetDateForMonth
                    (Js.clientId b) = (0, 0)).
  { unfold Js.monthTotals.
    assert (Hpids : forall pid,
              In pid (Js.clientProjects allBookingDocuments targetDateForMonth
                        (Js.clientId b)) ->
              Js.findProject allProjects pid = None).
    { intros pid Hpid. unfold Js.clientProjects in Hpid.
      apply forInKeys_In, distinct_In, in_map_iff in Hpid.
      destruct Hpid as (b' & <- & Hb').
      apply clientMonthly_In in Hb'. destruct Hb' as (Hin' & Hmonth' & Hid').
      now apply Hunknown. }
    revert Hpids.
    generalize (Js.clientProjects allBookingDocuments targetDateForMonth
                  (Js.clientId b)).
    intros pids. generalize ((0, 0) : float * float).
    induction pids as [| pid pids IH]; intros totals Hpids; [ reflexivity | ].
    cbn [fold_left]. unfold Js.addPair at 2.
    rewrite (Hpids pid (or_introl eq_refl)).
    apply IH. intros pid' Hpid'. apply Hpids. now right. }
  rewrite Hzero in Htot.
  destruct m as [h p a]. cbn [Js.totalHours Js.totalAmount Js.pricePerHour] in *.
  assert (Hh : h = 0) by exact (f_equal fst Htot).
  assert (Ha : a = 0) by exact (f_equal snd Htot).
  subst h a. rewrite Hprice. reflexivity.
Qed.

(** A found client with a single booking, on a project that is not found. *)
Lemma client_without_known_project_gets_zeros_witness :
  exists recipe : gmap string Js.ClientMonthlyMetrics,
    Js.calculateMonthlyClientMetrics
      [Js.mkBookingDocument "b2" jan15 (addHours jan15 2) "c1" "p9" 2]
      [Js.packageProject] [ana; bia] jan15
    = Js.Returned recipe
    /\ recipe !! "Ana"%string
       = Some {| Js.totalHours := 0; Js.pricePerHour := 0; Js.totalAmount := 0 |}.
Proof.
  destruct (Js.calculateMonthlyClientMetrics
              [Js.mkBookingDocument "b2" jan15 (addHours jan15 2) "c1" "p9" 2]
              [Js.packageProject] [ana; bia] jan15) as [recipe |] eqn:Hret.
  - exists recipe. split; [ reflexivity | ].
    apply (client_without_known_project_gets_zeros _ _ _ _ recipe
             (Js.mkBookingDocument "b2" jan15 (addHours jan15 2) "c1" "p9" 2) ana Hret).
    + repeat constructor; simpl; intuition discriminate.
    + now left.
    + reflexivity.
    + reflexivity.
    + discriminate.
    + intros b' [<- | []] _ _. reflexivity.
  - vm_compute in Hret. discriminate Hret.
Defined.

End JsExtras.

Section FirstMatchSample.

(** Three bookings at the 13:00 slot: the first is far from it, the second
    and the third both hold it in their buffer zone, and the second is the
    one attached. *)
Lemma first_match_is_reported_witness :
  exists l1 l2,
    [ mkBooking "s2" (addHours jan15 17) (addHours jan15 18) "Bia" None None;
      sessionBooking;
      mkBooking "s0" (addHours jan15 11) (addHours jan15 13) "Bia" None None ]
    = l1 ++ sessionBooking :: l2
    /\ l1 <> []
    /\ inBufferZone (addHours jan15 13) sessionBooking
    /\ inBufferZone (addHours jan15 13)
         (mkBooking "s0" (addHours jan15 11) (addHours jan15 13) "Bia" None None)
    /\ forall x, In x l1 -> ~ inBufferZone (addHours jan15 13) x.
Proof.
  destruct (first_match_is_reported (addHours jan15 13)
              [ mkBooking "s2" (addHours jan15 17) (addHours jan15 18) "Bia" None None;
                sessionBooking;
                mkBooking "s0" (addHours jan15 11) (addHours jan15 13) "Bia" None None ]
              sessionBooking eq_refl)
    as (l1 & l2 & Hl & _ & Hbuffer).
  destruct (Hbuffer eq_refl) as [Hzone Hfirst].
  exists l1, l2. split; [ exact Hl | ]. split; [ | split; [ exact Hzone | split ] ].
  - intros ->. unfold sessionBooking in Hl. discriminate Hl.
  - right. vm_compute. split; [ discriminate | reflexivity ].
  - exact Hfirst.
Defined.

End FirstMatchSample.
